(** * Lakeshore 218 / 370 drivers (pylablib/devices/Lakeshore/base.py)

    A shallow embedding of the two driver classes.  Each driver method is a
    computation in a small error-and-state monad whose state is the
    instrument behind the serial link together with the transcript of the
    calls the driver made on its SCPI base class ([self.write], [self.ask],
    [self.wait_dev], [self.get_id], [self.close]).  The SCPI layer
    ([pylablib.core.devio.SCPI]) is an interface, [SCPIDevice], the
    development is parametric in; the parameter classes of
    [pylablib.core.devio.interface] and the check of
    [pylablib.core.utils.funcargparse] are small models. *)

From Stdlib Require Import ZArith List String Ascii Bool Lia.
From Stdlib Require Import DecimalString DecimalPos.
Import ListNotations.

Set Implicit Arguments.
Local Open Scope string_scope.
Local Open Scope Z_scope.

(** ** The fragment of Python the drivers use *)

Module Py.

(** [str(n)] / ["{}".format(n)] for an integer. *)
Definition str_of_int (z : Z) : string := NilZero.string_of_int (Z.to_int z).

Fixpoint spaces (n : nat) : string :=
  match n with
  | O => ""
  | S n' => String " " (spaces n')
  end.

(** ["{:2d}".format(n)]: right-aligned in a field of width two. *)
Definition format_2d (z : Z) : string :=
  let s := str_of_int z in
  spaces (2 - String.length s)%nat ++ s.

(** [s.split(sep)] for a one-character separator: never the empty list. *)
Fixpoint split (sep : ascii) (s : string) : list string :=
  match s with
  | EmptyString => [EmptyString]
  | String c s' =>
      if Ascii.eqb c sep then EmptyString :: split sep s'
      else match split sep s' with
           | [] => [String c EmptyString]
           | x :: xs => String c x :: xs
           end
  end.

(** The ASCII characters [str.isspace] accepts. *)
Definition is_space (c : ascii) : bool :=
  let n := nat_of_ascii c in
  ((9 <=? n) && (n <=? 13) || (28 <=? n) && (n <=? 32))%nat.

Fixpoint lstrip (s : string) : string :=
  match s with
  | EmptyString => EmptyString
  | String c s' => if is_space c then lstrip s' else s
  end.

Fixpoint rstrip (s : string) : string :=
  match s with
  | EmptyString => EmptyString
  | String c s' =>
      match rstrip s' with
      | EmptyString => if is_space c then EmptyString else String c EmptyString
      | r => String c r
      end
  end.

(** [s.strip()] *)
Definition strip (s : string) : string := rstrip (lstrip s).

(** [", ".join(l)] with an arbitrary separator. *)
Fixpoint join (sep : string) (l : list string) : string :=
  match l with
  | [] => ""
  | [x] => x
  | x :: xs => x ++ sep ++ join sep xs
  end.

(** [s.startswith(p)] *)
Fixpoint startswith (s p : string) : bool :=
  match p with
  | EmptyString => true
  | String a p' =>
      match s with
      | EmptyString => false
      | String b s' => Ascii.eqb a b && startswith s' p'
      end
  end.

(** [sub in s] for two strings: [sub] occurs in [s] as a substring. *)
Fixpoint contains (s sub : string) : bool :=
  startswith s sub ||
  match s with
  | EmptyString => false
  | String _ s' => contains s' sub
  end.

(** The value of an ASCII decimal digit. *)
Definition digit (c : ascii) : option Z :=
  let n := Z.of_nat (nat_of_ascii c) in
  if (48 <=? n) && (n <=? 57) then Some (n - 48) else None.

(** The digits of a decimal literal, left to right; a single underscore may
    stand between two digits.  [after_digit] tells whether the character
    just read was a digit. *)
Fixpoint digits_acc (s : string) (acc : Z) (after_digit : bool) : option Z :=
  match s with
  | EmptyString => if after_digit then Some acc else None
  | String c s' =>
      if Ascii.eqb c "_"
      then (if after_digit then digits_acc s' acc false else None)
      else match digit c with
           | Some d => digits_acc s' (acc * 10 + d) true
           | None => None
           end
  end.

(** [int(s)] for a string, base ten: blanks around, an optional sign,
    digits; [None] stands for the [ValueError]. *)
Definition int_of_str (s : string) : option Z :=
  match strip s with
  | String "-" r => option_map Z.opp (digits_acc r 0 false)
  | String "+" r => digits_acc r 0 false
  | r => digits_acc r 0 false
  end.

End Py.

(** Floating point is not modelled: the drivers only parse, print and test
    floats against zero, so the float type and these four operations are an
    interface. *)
Class PyFloat : Type := {
  pyfloat : Type;
  (** [float(s)]; [None] stands for the [ValueError] *)
  float_of_str : string -> option pyfloat;
  (** [float(n)] for an integer *)
  float_of_int : Z -> pyfloat;
  (** [str(x)] *)
  float_str : pyfloat -> string;
  (** ["{:f}".format(x)] *)
  float_format_f : pyfloat -> string;
  (** [x == 0] *)
  float_is_zero : pyfloat -> bool
}.

(** Python values that cross the driver's interface. *)
#[warnings="-register-all"] Inductive pyval {PF : PyFloat} : Type :=
| VNone
| VBool (b : bool)
| VInt (z : Z)
| VFloat (x : pyfloat)
| VStr (s : string)
| VList (l : list pyval).

(** Exceptions.  [DeviceError] is [self.instr.Error], the transport-level
    failure; [BackendOpenError] is [self.instr.BackendOpenError], built from
    the exception it wraps. *)
Inductive exn : Type :=
| DeviceError (info : string)
| BackendOpenError (cause : exn)
| ParameterError (name : string)
| TypeError
| ValueError
| IndexError
| AttributeError.

(** [isinstance(e, self.instr.Error)] as the [except] clause of the
    constructors tests it. *)
Definition is_instr_error (e : exn) : bool :=
  match e with
  | DeviceError _ => true
  | _ => false
  end.

Section Values.
Context {PF : PyFloat}.

(** [repr(v)], with strings quoted and not escaped. *)
Fixpoint py_repr (v : pyval) : string :=
  match v with
  | VNone => "None"
  | VBool true => "True"
  | VBool false => "False"
  | VInt z => Py.str_of_int z
  | VFloat x => float_str x
  | VStr s => "'" ++ s ++ "'"
  | VList l => "[" ++ Py.join ", " (map py_repr l) ++ "]"
  end.

(** [str(v)], what ["{}".format(v)] prints. *)
Definition py_str (v : pyval) : string :=
  match v with
  | VStr s => s
  | _ => py_repr v
  end.

(** ["{:f}".format(v)]: numbers only. *)
Definition py_format_f (v : pyval) : exn + string :=
  match v with
  | VInt z => inr (float_format_f (float_of_int z))
  | VBool b => inr (float_format_f (float_of_int (if b then 1 else 0)))
  | VFloat x => inr (float_format_f x)
  | VStr _ => inl ValueError
  | VNone | VList _ => inl TypeError
  end.

(** [v == 0] *)
Definition py_eq_zero (v : pyval) : bool :=
  match v with
  | VInt z => z =? 0
  | VBool b => negb b
  | VFloat x => float_is_zero x
  | _ => false
  end.

(** [v is None] *)
Definition is_none (v : pyval) : bool :=
  match v with
  | VNone => true
  | _ => false
  end.

(** [float(s.strip())] *)
Definition py_float (s : string) : exn + pyval :=
  match float_of_str s with
  | Some x => inr (VFloat x)
  | None => inl ValueError
  end.

(** [a == b] on the values that are keys or values of an enumeration map
    (strings, integers, booleans as integers, [None]). *)
Definition py_eqb (a b : pyval) : bool :=
  match a, b with
  | VNone, VNone => true
  | VStr s, VStr t => String.eqb s t
  | VInt x, VInt y => x =? y
  | VBool x, VBool y => Bool.eqb x y
  | VBool x, VInt y => (if x then 1 else 0) =? y
  | VInt x, VBool y => x =? (if y then 1 else 0)
  | _, _ => false
  end.

End Values.

(** ** The SCPI base class, as the drivers see it *)

Inductive scalar_type : Type := TString | TInt | TFloat | TBool.

(** The [data_type] argument of [ask]: one type name or a list of them. *)
Inductive data_type : Type :=
| DT (t : scalar_type)
| DTs (ts : list scalar_type).

Section Transport.
Context {PF : PyFloat}.

(** What the driver asked of its base class, in order.  The timeout of
    [get_id] is in milliseconds ([timeout=2.] is [2000]). *)
Inductive event : Type :=
| EvInit (conn : list pyval) (backend term_write term_read : option string)
| EvWrite (msg : string) (arg : option (list pyval))
| EvAsk (msg : string) (dt : data_type)
| EvWaitDev
| EvGetId (timeout_ms : Z)
| EvClose.

(** [SCPI.SCPIDevice], the external collaborator: every operation acts on
    the instrument state [D] and may raise. *)
Class SCPIDevice (D : Type) : Type := {
  scpi_init : list pyval -> option string -> option string -> option string ->
              D -> option exn * D;
  scpi_write : string -> option (list pyval) -> D -> option exn * D;
  scpi_ask : string -> data_type -> D -> (exn + pyval) * D;
  scpi_wait_dev : D -> option exn * D;
  scpi_get_id : Z -> D -> (exn + pyval) * D;
  scpi_close : D -> D
}.

Context {D : Type} {T : SCPIDevice D}.

(** The driver object: the instrument it talks to, the transcript, and the
    names registered with [_add_settings_variable] / [_add_status_variable]. *)
Record world : Type := mkWorld {
  dev : D;
  log : list event;
  variables : list string
}.

Definition M (A : Type) : Type := world -> (exn + A) * world.

Definition ret {A} (a : A) : M A := fun w => (inr a, w).

Definition raise {A} (e : exn) : M A := fun w => (inl e, w).

Definition bind {A B} (m : M A) (k : A -> M B) : M B := fun w =>
  match m w with
  | (inl e, w') => (inl e, w')
  | (inr a, w') => k a w'
  end.

(** [try: m except Exception as e: h(e)] *)
Definition try_except {A} (m : M A) (h : exn -> M A) : M A := fun w =>
  match m w with
  | (inl e, w') => h e w'
  | (inr a, w') => (inr a, w')
  end.

Definition lift {A} (r : exn + A) : M A := fun w => (r, w).

Definition record (e : event) (d : D) (w : world) : world :=
  mkWorld d (log w ++ [e])%list (variables w).

Definition outcome (o : option exn * D) (e : event) (w : world) : (exn + unit) * world :=
  match o with
  | (Some x, d) => (inl x, record e d w)
  | (None, d) => (inr tt, record e d w)
  end.

Definition init (conn : list pyval) (backend term_write term_read : option string) : M unit :=
  fun w => outcome (scpi_init conn backend term_write term_read (dev w))
                   (EvInit conn backend term_write term_read) w.

Definition write (msg : string) (arg : option (list pyval)) : M unit :=
  fun w => outcome (scpi_write msg arg (dev w)) (EvWrite msg arg) w.

Definition ask (msg : string) (dt : data_type) : M pyval := fun w =>
  let (r, d) := scpi_ask msg dt (dev w) in (r, record (EvAsk msg dt) d w).

Definition wait_dev : M unit :=
  fun w => outcome (scpi_wait_dev (dev w)) EvWaitDev w.

Definition get_id (timeout_ms : Z) : M pyval := fun w =>
  let (r, d) := scpi_get_id timeout_ms (dev w) in (r, record (EvGetId timeout_ms) d w).

Definition close : M unit := fun w =>
  (inr tt, record EvClose (scpi_close (dev w)) w).

Definition add_variable (name : string) : M unit := fun w =>
  (inr tt, mkWorld (dev w) (log w) (variables w ++ [name])%list).

End Transport.

Declare Scope py_scope.
Delimit Scope py_scope with py.
Notation "x <- c1 ;; c2" := (bind c1 (fun x => c2))
  (at level 61, c1 at next level, right associativity) : py_scope.
Notation "c1 ;; c2" := (bind c1 (fun _ => c2))
  (at level 61, right associativity) : py_scope.
Local Open Scope py_scope.

(** ** Parameter classes and argument checks *)

Module interface.
Section Interface.
Context {PF : PyFloat}.

(** Modelled from the spec: [interface.RangeParameterClass] and
    [interface.EnumParameterClass] (module [pylablib.core.devio.interface],
    not in [Lakeshore/base.py]).  A range
    class accepts the integers between its bounds; an enumeration class maps
    each name of a fixed enumeration to the value the instrument uses (a
    list of names maps each name to itself); anything else is an
    invalid-parameter error.  The model covers the arguments the theorems
    below use, names of the enumerations and integers.  The library's
    classes accept two more kinds of argument, which this model refuses: the
    instrument's code in place of a name (mode 2 for manual) and a number
    within the bounds that is not an integer. *)
Inductive ParameterClass : Type :=
| RangeParameterClass (name : string) (lo hi : Z)
| EnumParameterClass (name : string) (vmap : list (pyval * pyval)).

Definition enum_of_list (names : list string) : list (pyval * pyval) :=
  map (fun n => (VStr n, VStr n)) names.

Definition param_name (p : ParameterClass) : string :=
  match p with
  | RangeParameterClass n _ _ => n
  | EnumParameterClass n _ => n
  end.

Definition in_range (lo hi : Z) (v : pyval) : bool :=
  match v with
  | VInt z => (lo <=? z) && (z <=? hi)
  | _ => false
  end.

(** From the caller's value to the instrument's. *)
Definition to_device (p : ParameterClass) (v : pyval) : exn + pyval :=
  match p with
  | RangeParameterClass n lo hi =>
      if in_range lo hi v then inr v else inl (ParameterError n)
  | EnumParameterClass n vmap =>
      match find (fun av => py_eqb (fst av) v) vmap with
      | Some av => inr (snd av)
      | None => inl (ParameterError n)
      end
  end.

(** From the instrument's value to the caller's. *)
Definition from_device (p : ParameterClass) (v : pyval) : exn + pyval :=
  match p with
  | RangeParameterClass n lo hi =>
      if in_range lo hi v then inr v else inl (ParameterError n)
  | EnumParameterClass n vmap =>
      match find (fun av => py_eqb (snd av) v) vmap with
      | Some av => inr (fst av)
      | None => inl (ParameterError n)
      end
  end.

Context {D : Type} {T : SCPIDevice D}.

(** Modelled from the spec: the decorator [interface.use_parameters]
    (module [pylablib.core.devio.interface], not in [Lakeshore/base.py]).
    It passes each argument that bears the name of
    a parameter class through that class before the body runs; an argument
    left at [None] stays [None] (the docstrings of the [setup_] methods:
    "Value of None means keeping the current parameter value").  The
    library does so for the arguments whose default is [None]; the model
    does it for every checked argument, and the theorems below give [None]
    only to arguments whose default is [None].  A returned
    value is converted only where the decorator names a class for it with
    [_returns], as [get_analog_output_settings] does. *)
Definition use_parameter (p : ParameterClass) (v : pyval) : M (D:=D) pyval :=
  if is_none v then ret v else lift (to_device p v).

Definition use_return (p : ParameterClass) (v : pyval) : M (D:=D) pyval :=
  lift (from_device p v).

End Interface.
End interface.

Module funcargparse.

(** Modelled from the spec: [funcargparse.check_parameter_range] (module
    [pylablib.core.utils.funcargparse], not in [Lakeshore/base.py]).  It
    fails with the invalid-parameter condition unless the value is in the
    set, [par_val in par_set].  [setup_channel] passes the set as the string
    ["IV"], and [in] on a Python string is the substring test. *)
Definition check_parameter_range (par_val par_name par_set : string) : exn + unit :=
  if Py.contains par_set par_val
  then inr tt
  else inl (ParameterError par_name).

End funcargparse.

Module comm_backend.
Section Conn.
Context {PF : PyFloat}.

(** Modelled from the spec: [SerialDeviceBackend.combine_conn] (module
    [pylablib.core.devio.comm_backend], not in [Lakeshore/base.py]).  The
    connection descriptor (a port, or a tuple that
    starts with the port) overrides the defaults position by position. *)
Definition combine_conn (conn defaults : list pyval) : list pyval :=
  (conn ++ skipn (List.length conn) defaults)%list.

End Conn.
End comm_backend.

(** ** class Lakeshore218 *)

Module Lakeshore218.
Import interface.
Section Driver.
Context {PF : PyFloat} {D : Type} {T : SCPIDevice D}.
Abbreviation M := (M (D:=D)).

(** [TLakeshore218AnalogSettings] *)
Record TAnalogSettings : Type := mkAnalog {
  bipolar : pyval;
  mode : pyval;
  channel : pyval;
  source : pyval;
  high_value : pyval;
  low_value : pyval;
  man_value : pyval
}.

(** Iterating the named tuple, as [zip(current, ...)] does. *)
Definition astuple (s : TAnalogSettings) : list pyval :=
  [bipolar s; mode s; channel s; source s; high_value s; low_value s; man_value s].

(** [TLakeshore218AnalogSettings( *values )]: exactly seven fields. *)
Definition TLakeshore218AnalogSettings (values : pyval) : exn + TAnalogSettings :=
  match values with
  | VList [a; b; c; d; e; f; g] => inr (mkAnalog a b c d e f g)
  | _ => inl TypeError
  end.

Definition _default_write_sync : bool := true.
Definition _float_fmt : string := "{:.3f}".
Definition CRLF : string := String (ascii_of_nat 13) (String (ascii_of_nat 10) EmptyString).

Definition default_conn : list pyval :=
  [VStr "COM1"; VInt 9600; VInt 7; VStr "E"; VInt 1].

Definition __init__ (conn : list pyval) : M unit :=
  let conn := comm_backend.combine_conn conn default_conn in
  init conn (Some "serial") (Some CRLF) (Some CRLF) ;;
  add_variable "enabled" ;;
  add_variable "sensor_type" ;;
  add_variable "temperature" ;;
  add_variable "sensor_reading" ;;
  add_variable "analog_output" ;;
  add_variable "analog_output_settings" ;;
  add_variable "filter_settings" ;;
  try_except (get_id 2000 ;; ret tt)
    (fun e => if is_instr_error e
              then close ;; raise (BackendOpenError e)
              else raise e).

Definition _p_channel : ParameterClass := RangeParameterClass "channel" 1 8.

Definition is_enabled_body (channel : pyval) : M pyval :=
  ask ("INPUT? " ++ py_str channel) (DT TBool).

Definition is_enabled (channel : pyval) : M pyval :=
  channel <- use_parameter _p_channel channel ;;
  is_enabled_body channel.

Definition set_enabled_body (channel : pyval) (enabled : bool) : M pyval :=
  write ("INPUT " ++ py_str channel ++ " " ++ py_str (VInt (if enabled then 1 else 0))) None ;;
  is_enabled channel.

Definition set_enabled (channel : pyval) (enabled : bool) : M pyval :=
  channel <- use_parameter _p_channel channel ;;
  set_enabled_body channel enabled.

Definition _p_group : ParameterClass :=
  EnumParameterClass "group" (enum_of_list ["A"; "B"]).

Definition _p_sensor_type : ParameterClass :=
  EnumParameterClass "sensor_type"
    [(VStr "diode_2.5", VInt 0); (VStr "diode_7.5", VInt 1); (VStr "plat_250", VInt 2);
     (VStr "plat_500", VInt 3); (VStr "plat_5k", VInt 4); (VStr "cernox", VInt 5)].

Definition get_sensor_type_body (group : pyval) : M pyval :=
  ask ("INTYPE? " ++ py_str group) (DT TInt).

(** Decorated with a bare [@interface.use_parameters]: no [_returns]. *)
Definition get_sensor_type (group : pyval) : M pyval :=
  group <- use_parameter _p_group group ;;
  get_sensor_type_body group.

Definition set_sensor_type_body (group sensor_type : pyval) : M pyval :=
  write ("INTYPE " ++ py_str group ++ " " ++ py_str sensor_type) None ;;
  wait_dev ;;
  get_sensor_type group.

Definition set_sensor_type (group sensor_type : pyval) : M pyval :=
  group <- use_parameter _p_group group ;;
  sensor_type <- use_parameter _p_sensor_type sensor_type ;;
  set_sensor_type_body group sensor_type.

Definition get_temperature (channel : pyval) : M pyval :=
  channel <- use_parameter _p_channel channel ;;
  ask ("KRDG? " ++ py_str channel) (DT TFloat).

(** [[f(x) for x in l]] where [f] may raise: the first failure wins. *)
Fixpoint comprehension {A B} (f : A -> exn + B) (l : list A) : exn + list B :=
  match l with
  | [] => inr []
  | x :: xs =>
      match f x with
      | inl e => inl e
      | inr y =>
          match comprehension f xs with
          | inl e => inl e
          | inr ys => inr (y :: ys)
          end
      end
  end.

Definition get_all_temperatures : M (list pyval) :=
  data <- ask "KRDG? 0" (DT TString) ;;
  match data with
  | VStr s => lift (comprehension (fun x => py_float (Py.strip x)) (Py.split "," s))
  | _ => raise AttributeError
  end.

Definition _p_output : ParameterClass := RangeParameterClass "output" 1 2.

Definition _p_output_mode : ParameterClass :=
  EnumParameterClass "output_mode"
    [(VStr "off", VInt 0); (VStr "input", VInt 1); (VStr "manual", VInt 2)].

Definition _p_source : ParameterClass :=
  EnumParameterClass "source"
    [(VStr "kelvin", VInt 1); (VStr "celsius", VInt 2); (VStr "sensor", VInt 3);
     (VStr "linear", VInt 4)].

Definition analog_types : data_type :=
  DTs [TBool; TInt; TInt; TInt; TFloat; TFloat; TFloat].

Definition get_analog_output_settings_body (output : pyval) : M TAnalogSettings :=
  values <- ask ("ANALOG? " ++ py_str output) analog_types ;;
  lift (TLakeshore218AnalogSettings values).

(** [_returns=(None,_p_output_mode,None,_p_source,None,None,None)] *)
Definition analog_returns (s : TAnalogSettings) : M TAnalogSettings :=
  m <- use_return _p_output_mode (mode s) ;;
  src <- use_return _p_source (source s) ;;
  ret (mkAnalog (bipolar s) m (channel s) src (high_value s) (low_value s) (man_value s)).

Definition get_analog_output_settings (output : pyval) : M TAnalogSettings :=
  output <- use_parameter _p_output output ;;
  s <- get_analog_output_settings_body output ;;
  analog_returns s.

(** [self._call_without_parameters(f, ...)]: the undecorated body. *)
Definition setup_analog_output_body
    (output bipolar mode channel source high_value low_value man_value : pyval)
    : M TAnalogSettings :=
  current <- get_analog_output_settings_body output ;;
  let value := map (fun cv => if is_none (snd cv) then fst cv else snd cv)
                   (combine (astuple current)
                      [bipolar; mode; channel; source; high_value; low_value; man_value]) in
  write "ANALOG" (Some (output :: value)) ;;
  get_analog_output_settings output.

(** [@interface.use_parameters(mode="output_mode")] *)
Definition setup_analog_output
    (output bipolar mode channel source high_value low_value man_value : pyval)
    : M TAnalogSettings :=
  output <- use_parameter _p_output output ;;
  mode <- use_parameter _p_output_mode mode ;;
  channel <- use_parameter _p_channel channel ;;
  source <- use_parameter _p_source source ;;
  setup_analog_output_body output bipolar mode channel source high_value low_value man_value.

Definition get_analog_output (output : pyval) : M pyval :=
  output <- use_parameter _p_output output ;;
  ask ("AOUT? " ++ py_str output) (DT TFloat).

(** [bipolar=False, enabled=True] are the defaults of the signature. *)
Definition set_analog_output_value (output value bipolar : pyval) (enabled : bool)
    : M pyval :=
  (if negb enabled
   then setup_analog_output output VNone (VStr "off") VNone VNone VNone VNone VNone
   else setup_analog_output output bipolar (VStr "manual") VNone VNone VNone VNone value) ;;
  get_analog_output output.

Definition get_sensor_reading (channel : pyval) : M pyval :=
  channel <- use_parameter _p_channel channel ;;
  ask ("SRDG? " ++ py_str channel) (DT TFloat).

Definition get_all_sensor_readings : M (list pyval) :=
  data <- ask "SRDG? 0" (DT TString) ;;
  match data with
  | VStr s => lift (comprehension (fun x => py_float (Py.strip x)) (Py.split "," s))
  | _ => raise AttributeError
  end.

(** [TLakeshore218FilterSettings] *)
Record TFilterSettings : Type := mkFilter {
  enabled : pyval;
  points : pyval;
  window : pyval
}.

Definition filter_astuple (s : TFilterSettings) : list pyval :=
  [enabled s; points s; window s].

(** [TLakeshore218FilterSettings( *values )]: exactly three fields. *)
Definition TLakeshore218FilterSettings (values : pyval) : exn + TFilterSettings :=
  match values with
  | VList [a; b; c] => inr (mkFilter a b c)
  | _ => inl TypeError
  end.

Definition filter_types : data_type := DTs [TBool; TInt; TInt].

Definition get_filter_settings_body (channel : pyval) : M TFilterSettings :=
  values <- ask ("FILTER? " ++ py_str channel) filter_types ;;
  lift (TLakeshore218FilterSettings values).

Definition get_filter_settings (channel : pyval) : M TFilterSettings :=
  channel <- use_parameter _p_channel channel ;;
  get_filter_settings_body channel.

(** Not decorated: the channel is checked by the final
    [get_filter_settings] only. *)
Definition setup_filter (channel enabled points window : pyval) : M TFilterSettings :=
  current <- get_filter_settings_body channel ;;
  let value := map (fun cv => if is_none (snd cv) then fst cv else snd cv)
                   (combine (filter_astuple current) [enabled; points; window]) in
  write "FILTER" (Some (channel :: value)) ;;
  get_filter_settings channel.

End Driver.
End Lakeshore218.

(** ** class Lakeshore370 *)

Module Lakeshore370.
Section Driver.
Context {PF : PyFloat} {D : Type} {T : SCPIDevice D}.
Abbreviation M := (M (D:=D)).

Definition __init__ (conn : list pyval) : M unit :=
  init conn None None None ;;
  try_except (get_id 2000 ;; ret tt)
    (fun e => if is_instr_error e
              then close ;; raise (BackendOpenError e)
              else raise e).

Definition get_resistance (channel : Z) : M pyval :=
  ask ("RDGR? " ++ Py.format_2d channel) (DT TFloat).

Definition get_sensor_power (channel : Z) : M pyval :=
  ask ("RDGPWR? " ++ Py.format_2d channel) (DT TFloat).

Definition select_channel (channel : Z) : M unit :=
  write ("SCAN " ++ Py.format_2d channel ++ ",0") None.

(** [channel=None, mode="V", exc_range=1, res_range=22, autorange=True] are
    the defaults of the signature. *)
Definition setup_channel (channel : option Z) (mode : string)
    (exc_range res_range : Z) (autorange : bool) : M unit :=
  lift (funcargparse.check_parameter_range mode "mode" "IV") ;;
  let channel := match channel with None => 0 | Some c => c end in
  let mode := if String.eqb mode "V" then 0 else 1 in
  let autorange := if autorange then 1 else 0 in
  write ("RDGRNG " ++ Py.format_2d channel ++ "," ++ Py.str_of_int mode ++ ","
         ++ Py.format_2d exc_range ++ "," ++ Py.format_2d res_range ++ ","
         ++ Py.str_of_int autorange ++ ",0") None.

Definition setup_heater_openloop (heater_range heater_percent heater_res : pyval) : M unit :=
  write "CMODE 3" None ;;
  res <- lift (py_format_f heater_res) ;;
  write ("CSET 1,0,1,25,1," ++ py_str heater_range ++ "," ++ res) None ;;
  write ("HTRRNG " ++ py_str heater_range) None ;;
  percent <- lift (py_format_f heater_percent) ;;
  write ("MOUT " ++ percent) None.

Definition get_heater_settings_openloop : M (pyval * pyval * pyval) :=
  reply <- ask "CSET?" (DT TString) ;;
  match reply with
  | VStr s =>
      let cset_reply := map Py.strip (Py.split "," s) in
      heater_percent <- ask "MOUT?" (DT TFloat) ;;
      heater_range <- ask "HTRRNG?" (DT TInt) ;;
      match nth_error cset_reply 6 with
      | Some field =>
          heater_res <- lift (py_float field) ;;
          ret (heater_range, heater_percent, heater_res)
      | None => raise IndexError
      end
  | _ => raise AttributeError
  end.

Definition get_analog_output (channel : pyval) : M pyval :=
  ask ("AOUT? " ++ py_str channel) (DT TFloat).

Definition set_analog_output (channel value : pyval) : M pyval :=
  (if py_eq_zero value
   then write ("ANALOG " ++ py_str channel ++ ",0,0,1,1,500.,0,0.") None
   else v <- lift (py_format_f value) ;;
        write ("ANALOG " ++ py_str channel ++ ",0,2,1,1,500.,0," ++ v) None) ;;
  get_analog_output channel.

(** [int(self.ask("SCAN?").split(",")[0].strip())] *)
Definition get_channel : M pyval :=
  reply <- ask "SCAN?" (DT TString) ;;
  match reply with
  | VStr s =>
      match Py.split "," s with
      | first :: _ =>
          match Py.int_of_str (Py.strip first) with
          | Some z => ret (VInt z)
          | None => raise ValueError
          end
      | [] => raise IndexError
      end
  | _ => raise AttributeError
  end.

End Driver.
End Lakeshore370.

(** ** What an instrument that implements the commands does

    The laws below say what the programming manuals say of the commands the
    round-trip properties rest on: a set command stores, a query reports
    what is stored and changes nothing.  Each law is stated through an
    observation of the instrument state. *)

Section Laws.
Context {PF : PyFloat} {D : Type} {T : SCPIDevice D}.

Definition flag_digit (b : bool) : string := if b then "1" else "0".

(** The [INPUT] command and the [INPUT?] query. *)
Record honours_INPUT (flag : D -> Z -> bool) : Prop := {
  INPUT_accepted : forall d c b, 1 <= c <= 8 ->
    fst (scpi_write ("INPUT " ++ Py.str_of_int c ++ " " ++ flag_digit b) None d) = None;
  INPUT_stored : forall d c b, 1 <= c <= 8 ->
    flag (snd (scpi_write ("INPUT " ++ Py.str_of_int c ++ " " ++ flag_digit b) None d)) c = b;
  INPUT_reported : forall d c, 1 <= c <= 8 ->
    fst (scpi_ask ("INPUT? " ++ Py.str_of_int c) (DT TBool) d) = inr (VBool (flag d c));
  INPUT_query_pure : forall d c, 1 <= c <= 8 ->
    flag (snd (scpi_ask ("INPUT? " ++ Py.str_of_int c) (DT TBool) d)) c = flag d c
}.

(** The [INTYPE] command, the [INTYPE?] query and the wait for completion. *)
Record honours_INTYPE (ty : D -> string -> Z) : Prop := {
  INTYPE_accepted : forall d g k, In g ["A"; "B"] -> 0 <= k <= 5 ->
    fst (scpi_write ("INTYPE " ++ g ++ " " ++ Py.str_of_int k) None d) = None;
  INTYPE_stored : forall d g k, In g ["A"; "B"] -> 0 <= k <= 5 ->
    ty (snd (scpi_write ("INTYPE " ++ g ++ " " ++ Py.str_of_int k) None d)) g = k;
  INTYPE_waited : forall d, fst (scpi_wait_dev d) = None;
  INTYPE_wait_pure : forall d g, ty (snd (scpi_wait_dev d)) g = ty d g;
  INTYPE_reported : forall d g, In g ["A"; "B"] ->
    fst (scpi_ask ("INTYPE? " ++ g) (DT TInt) d) = inr (VInt (ty d g));
  INTYPE_query_pure : forall d g, In g ["A"; "B"] ->
    ty (snd (scpi_ask ("INTYPE? " ++ g) (DT TInt) d)) g = ty d g
}.

(** The [ANALOG] command with its seven fields and the [ANALOG?] query. *)
Record honours_ANALOG (an : D -> Z -> list pyval) : Prop := {
  ANALOG_accepted : forall d o fields, 1 <= o <= 2 ->
    fst (scpi_write "ANALOG" (Some (VInt o :: fields)) d) = None;
  ANALOG_stored : forall d o fields, 1 <= o <= 2 ->
    an (snd (scpi_write "ANALOG" (Some (VInt o :: fields)) d)) o = fields;
  ANALOG_reported : forall d o, 1 <= o <= 2 ->
    fst (scpi_ask ("ANALOG? " ++ Py.str_of_int o) Lakeshore218.analog_types d)
    = inr (VList (an d o));
  ANALOG_query_pure : forall d o, 1 <= o <= 2 ->
    an (snd (scpi_ask ("ANALOG? " ++ Py.str_of_int o) Lakeshore218.analog_types d)) o
    = an d o
}.

(** A link on which no write fails. *)
Definition writes_accepted : Prop :=
  forall msg arg d, fst (scpi_write msg arg d) = None.

(** The events a computation added to the transcript. *)
Definition sent {A} (m : M A) (w : world (D:=D)) : list event :=
  skipn (List.length (log w)) (log (snd (m w))).

End Laws.

(** The six sensor types of the 218, with the code [INTYPE] uses. *)
Inductive sensor_type : Type :=
| diode_2_5 | diode_7_5 | plat_250 | plat_500 | plat_5k | cernox.

Definition sensor_type_name (t : sensor_type) : string :=
  match t with
  | diode_2_5 => "diode_2.5"
  | diode_7_5 => "diode_7.5"
  | plat_250 => "plat_250"
  | plat_500 => "plat_500"
  | plat_5k => "plat_5k"
  | cernox => "cernox"
  end.

Definition sensor_type_code (t : sensor_type) : Z :=
  match t with
  | diode_2_5 => 0
  | diode_7_5 => 1
  | plat_250 => 2
  | plat_500 => 3
  | plat_5k => 4
  | cernox => 5
  end.

(** ** The analog output settings, as the caller sees them *)

Section AnalogSpec.
Context {PF : PyFloat}.
Import Lakeshore218.

(** A field of an update: [None] keeps the prior value. *)
Definition keep_or (prior v : pyval) : pyval := if is_none v then prior else v.

(** The prior settings with the given fields laid over them. *)
Definition overlay (prior : TAnalogSettings)
    (bipolar' mode' channel' source' high_value' low_value' man_value' : pyval)
    : TAnalogSettings :=
  mkAnalog (keep_or (bipolar prior) bipolar') (keep_or (mode prior) mode')
           (keep_or (channel prior) channel') (keep_or (source prior) source')
           (keep_or (high_value prior) high_value') (keep_or (low_value prior) low_value')
           (keep_or (man_value prior) man_value').

(** The stored settings with the mode and the source by name, which is how
    [get_analog_output_settings] returns them. *)
Definition presented (raw : TAnalogSettings) : exn + TAnalogSettings :=
  match interface.from_device _p_output_mode (mode raw) with
  | inl e => inl e
  | inr m =>
      match interface.from_device _p_source (source raw) with
      | inl e => inl e
      | inr s =>
          inr (mkAnalog (bipolar raw) m (channel raw) s
                        (high_value raw) (low_value raw) (man_value raw))
      end
  end.

Definition valid_mode (v : pyval) : Prop :=
  In v [VNone; VStr "off"; VStr "input"; VStr "manual"].

Definition valid_source (v : pyval) : Prop :=
  In v [VNone; VStr "kelvin"; VStr "celsius"; VStr "sensor"; VStr "linear"].

Definition valid_channel (v : pyval) : Prop :=
  v = VNone \/ exists z, v = VInt z /\ 1 <= z <= 8.

(** An argument and the value the instrument uses for it. *)
Definition converts (p : interface.ParameterClass) (v v_dev : pyval) : Prop :=
  (v = VNone /\ v_dev = VNone) \/
  (is_none v = false /\ is_none v_dev = false /\
   interface.to_device p v = inr v_dev /\ interface.from_device p v_dev = inr v).

End AnalogSpec.

(** ** Replies made of comma-separated fields *)

(** A field that holds no comma. *)
Fixpoint comma_free (s : string) : bool :=
  match s with
  | EmptyString => true
  | String c s' => negb (Ascii.eqb c ",") && comma_free s'
  end.

(** The queries among the events. *)
Definition is_query {PF : PyFloat} (e : event) : bool :=
  match e with
  | EvAsk _ _ => true
  | _ => false
  end.

(** ** The filter settings and the checks of the decorator *)

Section FilterSpec.
Context {PF : PyFloat} {D : Type} {T : SCPIDevice D}.
Import Lakeshore218.

(** The [FILTER] command with its three fields and the [FILTER?] query. *)
Record honours_FILTER (fl : D -> Z -> list pyval) : Prop := {
  FILTER_accepted : forall d c fields, 1 <= c <= 8 ->
    fst (scpi_write "FILTER" (Some (VInt c :: fields)) d) = None;
  FILTER_stored : forall d c fields, 1 <= c <= 8 ->
    fl (snd (scpi_write "FILTER" (Some (VInt c :: fields)) d)) c = fields;
  FILTER_reported : forall d c, 1 <= c <= 8 ->
    fst (scpi_ask ("FILTER? " ++ Py.str_of_int c) filter_types d) = inr (VList (fl d c));
  FILTER_query_pure : forall d c, 1 <= c <= 8 ->
    fl (snd (scpi_ask ("FILTER? " ++ Py.str_of_int c) filter_types d)) c = fl d c
}.

(** The prior filter settings with the given fields laid over them. *)
Definition filter_overlay (prior : TFilterSettings) (enabled' points' window' : pyval)
    : TFilterSettings :=
  mkFilter (keep_or (enabled prior) enabled') (keep_or (points prior) points')
           (keep_or (window prior) window').

End FilterSpec.

(** The commas of a reply. *)
Fixpoint count_commas (s : string) : nat :=
  match s with
  | EmptyString => O
  | String c s' => ((if Ascii.eqb c "," then 1 else 0) + count_commas s')%nat
  end.

(** ** A bench instrument for the examples

    Floats with at most six decimals stand in for binary floats, and a
    simulated controller answers the commands of both models. *)

Module Sim.

Definition digit_of (c : ascii) : option Z :=
  let n := Z.of_nat (nat_of_ascii c) in
  if (48 <=? n) && (n <=? 57) then Some (n - 48) else None.

Fixpoint digits (s : string) (acc : Z) (n : nat) : option (Z * nat) :=
  match s with
  | EmptyString => Some (acc, n)
  | String c s' =>
      match digit_of c with
      | Some d => digits s' (acc * 10 + d) (S n)
      | None => None
      end
  end.

(** A decimal numeral, in millionths. *)
Definition parse_fixed (s : string) : option Z :=
  let s := Py.strip s in
  let '(sign, body) :=
    match s with
    | String "-" r => (-1, r)
    | String "+" r => (1, r)
    | _ => (1, s)
    end in
  match Py.split "." body with
  | [i] =>
      match digits i 0 0 with
      | Some (v, S _) => Some (sign * (v * 1000000))
      | _ => None
      end
  | [i; f] =>
      match digits i 0 0, digits f 0 0 with
      | Some (v, S _), Some (fv, k) =>
          if (k <=? 6)%nat
          then Some (sign * (v * 1000000 + fv * 10 ^ Z.of_nat (6 - k)))
          else None
      | _, _ => None
      end
  | _ => None
  end.

Fixpoint zeros (n : nat) : string :=
  match n with
  | O => ""
  | S n' => String "0" (zeros n')
  end.

Definition fraction6 (x : Z) : string :=
  let f := Py.str_of_int (Z.abs x mod 1000000) in
  zeros (6 - String.length f) ++ f.

Definition format_fixed (x : Z) : string :=
  (if x <? 0 then "-" else "") ++ Py.str_of_int (Z.abs x / 1000000) ++ "." ++ fraction6 x.

Fixpoint drop_zeros (s : string) : string :=
  match s with
  | EmptyString => EmptyString
  | String c s' =>
      match drop_zeros s' with
      | EmptyString => if Ascii.eqb c "0" then EmptyString else String c EmptyString
      | r => String c r
      end
  end.

Definition str_fixed (x : Z) : string :=
  let f := match drop_zeros (fraction6 x) with EmptyString => "0" | r => r end in
  (if x <? 0 then "-" else "") ++ Py.str_of_int (Z.abs x / 1000000) ++ "." ++ f.

#[global] Instance DecFloat : PyFloat := {
  pyfloat := Z;
  float_of_str := parse_fixed;
  float_of_int := fun z => z * 1000000;
  float_str := str_fixed;
  float_format_f := format_fixed;
  float_is_zero := fun x => x =? 0
}.

(** The float with the given numeral, e.g. [fl "3.5"]. *)
Definition fl (s : string) : pyval :=
  match parse_fixed s with
  | Some x => VFloat (PF:=DecFloat) x
  | None => VNone
  end.

Record state : Type := mkState {
  input_flag : Z -> bool;
  intype : string -> Z;
  analog : Z -> list pyval;
  krdg : string;
  cset : string;
  mout : pyval;
  htrrng : Z;
  aout : pyval;
  id_reply : exn + pyval;
  is_open : bool
}.

Definition set_input (c : Z) (b : bool) (st : state) : state :=
  mkState (fun c' => if c' =? c then b else input_flag st c') (intype st) (analog st)
          (krdg st) (cset st) (mout st) (htrrng st) (aout st) (id_reply st) (is_open st).

Definition set_intype (g : string) (k : Z) (st : state) : state :=
  mkState (input_flag st) (fun g' => if String.eqb g' g then k else intype st g') (analog st)
          (krdg st) (cset st) (mout st) (htrrng st) (aout st) (id_reply st) (is_open st).

Definition set_analog (o : Z) (fields : list pyval) (st : state) : state :=
  mkState (input_flag st) (intype st) (fun o' => if o' =? o then fields else analog st o')
          (krdg st) (cset st) (mout st) (htrrng st) (aout st) (id_reply st) (is_open st).

Definition set_open (b : bool) (st : state) : state :=
  mkState (input_flag st) (intype st) (analog st)
          (krdg st) (cset st) (mout st) (htrrng st) (aout st) (id_reply st) b.

Definition channels : list Z := [1; 2; 3; 4; 5; 6; 7; 8].
Definition groups : list string := ["A"; "B"].
Definition type_codes : list Z := [0; 1; 2; 3; 4; 5].

Definition INPUT_commands : list (string * (Z * bool)) :=
  flat_map (fun c => map (fun b => ("INPUT " ++ Py.str_of_int c ++ " " ++ flag_digit b, (c, b)))
                         [false; true]) channels.

Definition INTYPE_commands : list (string * (string * Z)) :=
  flat_map (fun g => map (fun k => ("INTYPE " ++ g ++ " " ++ Py.str_of_int k, (g, k)))
                         type_codes) groups.

Definition lookup {A} (msg : string) (table : list (string * A)) : option A :=
  option_map snd (find (fun e => String.eqb msg (fst e)) table).

Definition sim_write (msg : string) (arg : option (list pyval)) (st : state)
    : option exn * state :=
  match arg with
  | None =>
      match lookup msg INPUT_commands with
      | Some (c, b) => (None, set_input c b st)
      | None =>
          match lookup msg INTYPE_commands with
          | Some (g, k) => (None, set_intype g k st)
          | None => (None, st)
          end
      end
  | Some (VInt o :: fields) =>
      if String.eqb msg "ANALOG" then (None, set_analog o fields st) else (None, st)
  | Some _ => (None, st)
  end.

Definition scalar_queries (st : state) : list (string * (data_type * pyval)) :=
  [("KRDG? 0", (DT TString, VStr (krdg st)));
   ("CSET?", (DT TString, VStr (cset st)));
   ("MOUT?", (DT TFloat, mout st));
   ("HTRRNG?", (DT TInt, VInt (htrrng st)))].

Definition queries (st : state) : list (string * (data_type * pyval)) :=
  List.concat
    [map (fun c => ("INPUT? " ++ Py.str_of_int c, (DT TBool, VBool (input_flag st c)))) channels;
     map (fun g => ("INTYPE? " ++ g, (DT TInt, VInt (intype st g)))) groups;
     map (fun o => ("ANALOG? " ++ Py.str_of_int o,
                    (Lakeshore218.analog_types, VList (analog st o)))) [1; 2];
     scalar_queries st;
     map (fun c => ("AOUT? " ++ Py.str_of_int c, (DT TFloat, aout st))) channels].

(** A query the instrument does not know times out. *)
Definition sim_ask (msg : string) (dt : data_type) (st : state) : (exn + pyval) * state :=
  match lookup msg (queries st) with
  | Some (_, v) => (inr v, st)
  | None => (inl (DeviceError "timeout"), st)
  end.

#[global] Instance device : SCPIDevice state := {
  scpi_init := fun _ _ _ _ st => (None, set_open true st);
  scpi_write := sim_write;
  scpi_ask := sim_ask;
  scpi_wait_dev := fun st => (None, st);
  scpi_get_id := fun _ st => (id_reply st, st);
  scpi_close := set_open false
}.

(** An instrument behind a link that swallows every command: each write is
    accepted and nothing comes of it. *)
Definition deaf_device : SCPIDevice state := {|
  scpi_init := fun _ _ _ _ st => (None, set_open true st);
  scpi_write := fun _ _ st => (None, st);
  scpi_ask := sim_ask;
  scpi_wait_dev := fun st => (None, st);
  scpi_get_id := fun _ st => (id_reply st, st);
  scpi_close := set_open false
|}.

Definition factory_analog : list pyval :=
  [VBool false; VInt 1; VInt 3; VInt 1; fl "300.0"; fl "0.0"; fl "0.0"].

(** The instrument as it comes out of the box. *)
Definition bench : state := {|
  input_flag := fun _ => false;
  intype := fun _ => 2;
  analog := fun _ => factory_analog;
  krdg := "+294.905,+295.001,+77.350,+4.215,+0.000,+0.000,+0.000,+0.000";
  cset := "1,0,1,25,1,3,100.000";
  mout := fl "50.0";
  htrrng := 3;
  aout := fl "0.0";
  id_reply := inr (VStr "LSCI,MODEL218S,0,120407");
  is_open := false
|}.

(** The same instrument with a link on which the identification times out. *)
Definition silent : state := {|
  input_flag := input_flag bench;
  intype := intype bench;
  analog := analog bench;
  krdg := krdg bench;
  cset := cset bench;
  mout := mout bench;
  htrrng := htrrng bench;
  aout := aout bench;
  id_reply := inl (DeviceError "timeout");
  is_open := false
|}.

Definition fresh (st : state) : world := mkWorld st [] [].

End Sim.

(** ** Two more instruments for the examples *)

(** An instrument that answers from a fixed table of replies and accepts
    every command. *)
Module Script.

Definition state : Type := list (string * pyval (PF:=Sim.DecFloat)).

Definition answer (msg : string) (st : state) : (exn + pyval) * state :=
  match Sim.lookup msg st with
  | Some v => (inr v, st)
  | None => (inl (DeviceError "timeout"), st)
  end.

Definition device : SCPIDevice (PF:=Sim.DecFloat) state := {|
  scpi_init := fun _ _ _ _ st => (None, st);
  scpi_write := fun _ _ st => (None, st);
  scpi_ask := fun msg _ st => answer msg st;
  scpi_wait_dev := fun st => (None, st);
  scpi_get_id := fun _ st => answer "*IDN?" st;
  scpi_close := fun st => st
|}.

(** A link that cannot be opened. *)
Definition locked : SCPIDevice (PF:=Sim.DecFloat) state := {|
  scpi_init := fun _ _ _ _ st => (Some (DeviceError "port busy"), st);
  scpi_write := fun _ _ st => (None, st);
  scpi_ask := fun msg _ st => answer msg st;
  scpi_wait_dev := fun st => (None, st);
  scpi_get_id := fun _ st => answer "*IDN?" st;
  scpi_close := fun st => st
|}.

(** A link that refuses every command. *)
Definition refusing : SCPIDevice (PF:=Sim.DecFloat) state := {|
  scpi_init := fun _ _ _ _ st => (None, st);
  scpi_write := fun _ _ st => (Some (DeviceError "timeout"), st);
  scpi_ask := fun msg _ st => answer msg st;
  scpi_wait_dev := fun st => (None, st);
  scpi_get_id := fun _ st => answer "*IDN?" st;
  scpi_close := fun st => st
|}.

(** A link on which the identification reply cannot be decoded. *)
Definition garbled : SCPIDevice (PF:=Sim.DecFloat) state := {|
  scpi_init := fun _ _ _ _ st => (None, st);
  scpi_write := fun _ _ st => (None, st);
  scpi_ask := fun msg _ st => answer msg st;
  scpi_wait_dev := fun st => (None, st);
  scpi_get_id := fun _ st => (inl ValueError, st);
  scpi_close := fun st => st
|}.

Definition fresh (st : state) : world (D:=state) := mkWorld st [] [].

End Script.

(** An instrument that stores the filter settings of its eight inputs. *)
Module FilterSim.

Definition state : Type := Z -> list (pyval (PF:=Sim.DecFloat)).

Definition write (msg : string) (arg : option (list pyval)) (st : state)
    : option exn * state :=
  match arg with
  | Some (VInt c :: fields) =>
      if String.eqb msg "FILTER"
      then (None, fun c' => if c' =? c then fields else st c')
      else (None, st)
  | _ => (None, st)
  end.

Definition queries (st : state) : list (string * pyval) :=
  map (fun c => ("FILTER? " ++ Py.str_of_int c, VList (st c))) Sim.channels.

Definition ask (msg : string) (dt : data_type) (st : state) : (exn + pyval) * state :=
  match Sim.lookup msg (queries st) with
  | Some v => (inr v, st)
  | None => (inl (DeviceError "timeout"), st)
  end.

Definition device : SCPIDevice (PF:=Sim.DecFloat) state := {|
  scpi_init := fun _ _ _ _ st => (None, st);
  scpi_write := write;
  scpi_ask := ask;
  scpi_wait_dev := fun st => (None, st);
  scpi_get_id := fun _ st => (inr (VStr "LSCI,MODEL218S,0,120407"), st);
  scpi_close := fun st => st
|}.

Definition bench : state := fun _ => [VBool false; VInt 8; VInt 2].

Definition fresh (st : state) : world (D:=state) := mkWorld st [] [].

End FilterSim.

(** ** Running the monad *)

Unset Implicit Arguments.

Section Steps.
Context {PF : PyFloat} {D : Type} {T : SCPIDevice D}.
Implicit Types w : world (D:=D).

Lemma bind_ok A B (m : M A) (k : A -> M B) w a w' :
  m w = (inr a, w') -> bind m k w = k a w'.
Proof. intros E. unfold bind. now rewrite E. Qed.

Lemma bind_raise A B (m : M A) (k : A -> M B) w e w' :
  m w = (inl e, w') -> bind m k w = (inl e, w').
Proof. intros E. unfold bind. now rewrite E. Qed.

Lemma write_ok msg arg w d' :
  scpi_write msg arg (dev w) = (None, d') ->
  write msg arg w = (inr tt, record (EvWrite msg arg) d' w).
Proof. intros E. unfold write, outcome. now rewrite E. Qed.

Lemma write_refused msg arg w e d' :
  scpi_write msg arg (dev w) = (Some e, d') ->
  write msg arg w = (inl e, record (EvWrite msg arg) d' w).
Proof. intros E. unfold write, outcome. now rewrite E. Qed.

Lemma write_surj msg arg w :
  fst (scpi_write msg arg (dev w)) = None ->
  write msg arg w = (inr tt, record (EvWrite msg arg) (snd (scpi_write msg arg (dev w))) w).
Proof.
  intros E. apply write_ok. destruct (scpi_write msg arg (dev w)); cbn in *. now subst.
Qed.

Lemma write_log msg arg w :
  log (snd (write msg arg w)) = (log w ++ [EvWrite msg arg])%list.
Proof.
  unfold write, outcome. destruct (scpi_write msg arg (dev w)) as [[e|] d']; reflexivity.
Qed.

Lemma ask_run msg dt w :
  ask msg dt w = (fst (scpi_ask msg dt (dev w)),
                  record (EvAsk msg dt) (snd (scpi_ask msg dt (dev w))) w).
Proof. unfold ask. now destruct (scpi_ask msg dt (dev w)). Qed.

Lemma wait_dev_surj w :
  fst (scpi_wait_dev (dev w)) = None ->
  wait_dev w = (inr tt, record EvWaitDev (snd (scpi_wait_dev (dev w))) w).
Proof.
  intros E. unfold wait_dev, outcome. destruct (scpi_wait_dev (dev w)); cbn in *. now subst.
Qed.

Lemma sent_app A (m : M A) w l :
  log (snd (m w)) = (log w ++ l)%list -> sent m w = l.
Proof.
  intros E. unfold sent. rewrite E.
  rewrite skipn_app, skipn_all, Nat.sub_diag. reflexivity.
Qed.

Lemma in_range_int lo hi z :
  lo <= z <= hi -> interface.in_range lo hi (VInt z) = true.
Proof. intros [H1 H2]. cbn. apply andb_true_intro. split; now apply Z.leb_le. Qed.

Lemma use_range_parameter name lo hi z w :
  lo <= z <= hi ->
  interface.use_parameter (interface.RangeParameterClass name lo hi) (VInt z) w
  = (inr (VInt z), w).
Proof.
  intros H. unfold interface.use_parameter, lift. cbn [is_none interface.to_device].
  now rewrite in_range_int.
Qed.

Lemma flag_digit_str (b : bool) : py_str (VInt (if b then 1 else 0)) = flag_digit b.
Proof. now destruct b. Qed.

End Steps.

(** ** Lakeshore 218: channel enable *)

Section Enabled.
Context {PF : PyFloat} {D : Type} {T : SCPIDevice D}.
Implicit Types w : world (D:=D).

Lemma is_enabled_run c w :
  1 <= c <= 8 ->
  Lakeshore218.is_enabled (VInt c) w
  = ask ("INPUT? " ++ Py.str_of_int c) (DT TBool) w.
Proof.
  intros Hc. unfold Lakeshore218.is_enabled.
  erewrite bind_ok by (now apply use_range_parameter). reflexivity.
Qed.

Lemma set_enabled_run c b w :
  1 <= c <= 8 ->
  Lakeshore218.set_enabled (VInt c) b w
  = (write ("INPUT " ++ Py.str_of_int c ++ " " ++ flag_digit b) None ;;
     ask ("INPUT? " ++ Py.str_of_int c) (DT TBool)) w.
Proof.
  intros Hc. unfold Lakeshore218.set_enabled.
  erewrite bind_ok by (now apply use_range_parameter).
  unfold Lakeshore218.set_enabled_body. rewrite flag_digit_str.
  cbn [py_str py_repr]. unfold bind.
  destruct (write _ None w) as [[e|[]] w1]; [reflexivity|].
  now rewrite is_enabled_run.
Qed.

(** C8: for a channel c in 1..8, [set_enabled] sends [INPUT c 1] or
    [INPUT c 0] and returns the reply to the [INPUT? c] query it issues
    after the write, whatever the instrument answers; on an instrument that
    implements [INPUT], [set_enabled(c, b)] returns [b] and a following
    [is_enabled(c)] returns [b] too, for [b] true and false. *)
Theorem C8_set_enabled_round_trip (c : Z) (b : bool) (w : world) :
  1 <= c <= 8 ->
  (forall d1,
     scpi_write ("INPUT " ++ Py.str_of_int c ++ " " ++ flag_digit b) None (dev w) = (None, d1) ->
     Lakeshore218.set_enabled (VInt c) b w
     = (fst (scpi_ask ("INPUT? " ++ Py.str_of_int c) (DT TBool) d1),
        mkWorld (snd (scpi_ask ("INPUT? " ++ Py.str_of_int c) (DT TBool) d1))
                (log w ++ [EvWrite ("INPUT " ++ Py.str_of_int c ++ " " ++ flag_digit b) None;
                           EvAsk ("INPUT? " ++ Py.str_of_int c) (DT TBool)])
                (variables w)))
  /\
  (forall flag, honours_INPUT flag ->
     fst (Lakeshore218.set_enabled (VInt c) b w) = inr (VBool b) /\
     fst (Lakeshore218.is_enabled (VInt c) (snd (Lakeshore218.set_enabled (VInt c) b w)))
     = inr (VBool b)).
Proof.
  intros Hc. split.
  - intros d1 E. rewrite set_enabled_run by assumption.
    erewrite bind_ok by (apply write_ok; eassumption). rewrite ask_run. cbn.
    unfold record. cbn. now rewrite <- app_assoc.
  - intros flag H. rewrite set_enabled_run by assumption.
    erewrite bind_ok by (apply write_surj; now apply (INPUT_accepted H)).
    rewrite ask_run. cbn [fst snd].
    rewrite is_enabled_run, ask_run by assumption. cbn [fst snd dev record].
    rewrite (INPUT_reported H), (INPUT_reported H) by assumption.
    rewrite (INPUT_query_pure H) by assumption.
    rewrite (INPUT_stored H) by assumption. now split.
Qed.
End Enabled.

(** The bench instrument implements [INPUT]. *)
Lemma Sim_honours_INPUT : honours_INPUT (T:=Sim.device) Sim.input_flag.
Proof.
  assert (cases : forall c, 1 <= c <= 8 -> In c Sim.channels).
  { intros c Hc. unfold Sim.channels, In. lia. }
  split; intros d c; [intros b Hc | intros b Hc | intros Hc | intros Hc];
    apply cases in Hc; cbn in Hc;
    repeat (destruct Hc as [<-|Hc]; [try destruct b; reflexivity|]); contradiction.
Qed.

Lemma C8_set_enabled_round_trip_witness :
  fst (Lakeshore218.set_enabled (VInt 3) true (Sim.fresh Sim.bench)) = inr (VBool true) /\
  fst (Lakeshore218.is_enabled (VInt 3)
         (snd (Lakeshore218.set_enabled (VInt 3) true (Sim.fresh Sim.bench))))
  = inr (VBool true).
Proof.
  exact (proj2 (C8_set_enabled_round_trip 3 true (Sim.fresh Sim.bench) ltac:(lia))
               Sim.input_flag Sim_honours_INPUT).
Defined.

(** Behind a link that swallows the command the returned state is the
    instrument's, not the requested one. *)
Lemma set_enabled_reports_the_instrument :
  fst (Lakeshore218.set_enabled (T:=Sim.deaf_device) (VInt 3) true (Sim.fresh Sim.bench))
  = inr (VBool false).
Proof. reflexivity. Qed.

(** ** Lakeshore 218: sensor type *)

Section SensorType.
Context {PF : PyFloat} {D : Type} {T : SCPIDevice D}.
Implicit Types w : world (D:=D).

Lemma use_group g w :
  In g ["A"; "B"] ->
  interface.use_parameter Lakeshore218._p_group (VStr g) w = (inr (VStr g), w).
Proof. intros [<-|[<-|[]]]; reflexivity. Qed.

Lemma use_sensor_type t w :
  interface.use_parameter Lakeshore218._p_sensor_type (VStr (sensor_type_name t)) w
  = (inr (VInt (sensor_type_code t)), w).
Proof. destruct t; reflexivity. Qed.

Lemma get_sensor_type_run g w :
  In g ["A"; "B"] ->
  Lakeshore218.get_sensor_type (VStr g) w = ask ("INTYPE? " ++ g) (DT TInt) w.
Proof.
  intros Hg. unfold Lakeshore218.get_sensor_type.
  erewrite bind_ok by (now apply use_group). reflexivity.
Qed.

Lemma set_sensor_type_run g t w :
  In g ["A"; "B"] ->
  Lakeshore218.set_sensor_type (VStr g) (VStr (sensor_type_name t)) w
  = (write ("INTYPE " ++ g ++ " " ++ Py.str_of_int (sensor_type_code t)) None ;;
     wait_dev ;;
     ask ("INTYPE? " ++ g) (DT TInt)) w.
Proof.
  intros Hg. unfold Lakeshore218.set_sensor_type.
  erewrite bind_ok by (now apply use_group).
  erewrite bind_ok by (apply use_sensor_type).
  unfold Lakeshore218.set_sensor_type_body. cbn [py_str py_repr]. unfold bind.
  destruct (write _ None w) as [[e|[]] w1]; [reflexivity|].
  destruct (wait_dev w1) as [[e|[]] w2]; [reflexivity|].
  now apply get_sensor_type_run.
Qed.

Lemma sensor_type_code_range t : 0 <= sensor_type_code t <= 5.
Proof. destruct t; cbn; lia. Qed.

(** On an instrument that implements [INTYPE], the command stores the code
    of the type and both the value [set_sensor_type] returns and a
    following [get_sensor_type] are that code. *)
Lemma sensor_type_code_round_trip ty g t w :
  honours_INTYPE ty -> In g ["A"; "B"] ->
  fst (Lakeshore218.set_sensor_type (VStr g) (VStr (sensor_type_name t)) w)
  = inr (VInt (sensor_type_code t)) /\
  fst (Lakeshore218.get_sensor_type (VStr g)
         (snd (Lakeshore218.set_sensor_type (VStr g) (VStr (sensor_type_name t)) w)))
  = inr (VInt (sensor_type_code t)).
Proof.
  intros H Hg. pose proof (sensor_type_code_range t) as Hk.
  rewrite set_sensor_type_run by assumption.
  erewrite bind_ok by (apply write_surj; now apply (INTYPE_accepted H)).
  erewrite bind_ok by (apply wait_dev_surj; now apply (INTYPE_waited H)).
  rewrite ask_run. cbn [fst snd].
  rewrite get_sensor_type_run, ask_run by assumption. cbn [fst snd dev record].
  rewrite !(INTYPE_reported H) by assumption.
  rewrite (INTYPE_query_pure H) by assumption.
  rewrite (INTYPE_wait_pure H).
  rewrite (INTYPE_stored H) by assumption. now split.
Qed.

(** C1: for every group in A, B and every sensor type t of the enumeration,
    on an instrument that implements [INTYPE], [set_sensor_type(group, t)]
    and a following [get_sensor_type(group)] both return the integer code
    of t (0 to 5) as the instrument reports it, which is a different value
    from the name t that was passed in. *)
Theorem C1_sensor_type_read_back_is_the_code ty g t w :
  honours_INTYPE ty -> In g ["A"; "B"] ->
  fst (Lakeshore218.set_sensor_type (VStr g) (VStr (sensor_type_name t)) w)
  = inr (VInt (sensor_type_code t)) /\
  fst (Lakeshore218.get_sensor_type (VStr g)
         (snd (Lakeshore218.set_sensor_type (VStr g) (VStr (sensor_type_name t)) w)))
  = inr (VInt (sensor_type_code t)) /\
  VInt (sensor_type_code t) <> VStr (sensor_type_name t) /\
  py_eqb (VInt (sensor_type_code t)) (VStr (sensor_type_name t)) = false.
Proof.
  intros H Hg.
  destruct (sensor_type_code_round_trip ty g t w H Hg) as [Hset Hget].
  repeat split; try assumption. discriminate.
Qed.

End SensorType.

(** The bench instrument implements [INTYPE]. *)
Lemma Sim_honours_INTYPE : honours_INTYPE (T:=Sim.device) Sim.intype.
Proof.
  assert (codes : forall k, 0 <= k <= 5 -> In k Sim.type_codes).
  { intros k Hk. unfold Sim.type_codes, In. lia. }
  split; try reflexivity.
  - intros d g k [<-|[<-|[]]] Hk; apply codes in Hk; cbn in Hk;
      repeat (destruct Hk as [<-|Hk]; [reflexivity|]); contradiction.
  - intros d g k [<-|[<-|[]]] Hk; apply codes in Hk; cbn in Hk;
      repeat (destruct Hk as [<-|Hk]; [reflexivity|]); contradiction.
  - intros d g [<-|[<-|[]]]; reflexivity.
  - intros d g [<-|[<-|[]]]; reflexivity.
Qed.

Lemma C1_sensor_type_read_back_is_the_code_witness :
  fst (Lakeshore218.set_sensor_type (VStr "A") (VStr "diode_2.5") (Sim.fresh Sim.bench))
  = inr (VInt 0) /\
  fst (Lakeshore218.get_sensor_type (VStr "A")
         (snd (Lakeshore218.set_sensor_type (VStr "A") (VStr "diode_2.5")
                 (Sim.fresh Sim.bench))))
  = inr (VInt 0) /\
  VInt 0 <> VStr "diode_2.5" /\
  py_eqb (VInt 0) (VStr "diode_2.5") = false.
Proof.
  exact (C1_sensor_type_read_back_is_the_code Sim.intype "A" diode_2_5
           (Sim.fresh Sim.bench) Sim_honours_INTYPE (or_introl eq_refl)).
Defined.

(** ** Lakeshore 218: analog output settings *)

Section Analog.
Context {PF : PyFloat} {D : Type} {T : SCPIDevice D}.
Implicit Types w : world (D:=D).
Import Lakeshore218.

Lemma use_converted p v v_dev w :
  converts p v v_dev -> interface.use_parameter p v w = (inr v_dev, w).
Proof.
  unfold interface.use_parameter, lift.
  intros [[-> ->]|(Hv & _ & Hto & _)]; [reflexivity|]. now rewrite Hv, Hto.
Qed.

Lemma valid_mode_converts m :
  valid_mode m -> exists m_dev, converts _p_output_mode m m_dev.
Proof.
  intros H. repeat (destruct H as [<-|H]); try contradiction;
    [ exists VNone; now left
    | exists (VInt 0) | exists (VInt 1) | exists (VInt 2) ];
    right; repeat split; reflexivity.
Qed.

Lemma valid_source_converts s :
  valid_source s -> exists s_dev, converts _p_source s s_dev.
Proof.
  intros H. repeat (destruct H as [<-|H]); try contradiction;
    [ exists VNone; now left
    | exists (VInt 1) | exists (VInt 2) | exists (VInt 3) | exists (VInt 4) ];
    right; repeat split; reflexivity.
Qed.

Lemma valid_channel_converts c :
  valid_channel c -> converts _p_channel c c.
Proof.
  intros [->|(z & -> & Hz)]; [now left|]. right.
  cbn [is_none interface.to_device interface.from_device _p_channel].
  rewrite in_range_int by assumption. now repeat split.
Qed.

Lemma keep_converted p prior_raw prior v v_dev :
  converts p v v_dev -> interface.from_device p prior_raw = inr prior ->
  interface.from_device p (keep_or prior_raw v_dev) = inr (keep_or prior v).
Proof.
  unfold keep_or. intros [[-> ->]|(Hv & Hd & _ & Hfrom)] Hp; cbn [is_none].
  - assumption.
  - now rewrite Hv, Hd.
Qed.

Lemma analog_returns_run raw shown w :
  presented raw = inr shown -> analog_returns raw w = (inr shown, w).
Proof.
  unfold presented, analog_returns, interface.use_return, bind, lift, ret.
  destruct (interface.from_device _p_output_mode (mode raw)) as [e|m]; [discriminate|].
  destruct (interface.from_device _p_source (source raw)) as [e|s]; [discriminate|].
  now intros [= <-].
Qed.

Lemma presented_overlay raw prior b m m_dev c s s_dev h l mv :
  presented raw = inr prior ->
  converts _p_output_mode m m_dev -> converts _p_source s s_dev ->
  presented (overlay raw b m_dev c s_dev h l mv) = inr (overlay prior b m c s h l mv).
Proof.
  unfold presented at 1. intros Hp Hm Hs.
  destruct (interface.from_device _p_output_mode (mode raw)) as [e|pm] eqn:Em; [discriminate|].
  destruct (interface.from_device _p_source (source raw)) as [e|ps] eqn:Es; [discriminate|].
  injection Hp as <-. unfold presented, overlay.
  cbn [bipolar mode channel source high_value low_value man_value].
  rewrite (keep_converted _ _ _ _ _ Hm Em), (keep_converted _ _ _ _ _ Hs Es).
  reflexivity.
Qed.

Lemma get_analog_output_settings_body_run an o cur w :
  honours_ANALOG an -> 1 <= o <= 2 -> an (dev w) o = astuple cur ->
  get_analog_output_settings_body (VInt o) w
  = (inr cur, record (EvAsk ("ANALOG? " ++ Py.str_of_int o) analog_types)
                     (snd (scpi_ask ("ANALOG? " ++ Py.str_of_int o) analog_types (dev w))) w).
Proof.
  intros H Ho Hcur. unfold get_analog_output_settings_body. cbn [py_str py_repr].
  unfold bind. rewrite ask_run, (ANALOG_reported H), Hcur by assumption.
  now destruct cur.
Qed.

Lemma get_analog_output_settings_shown an o raw shown w :
  honours_ANALOG an -> 1 <= o <= 2 ->
  an (dev w) o = astuple raw -> presented raw = inr shown ->
  get_analog_output_settings (VInt o) w
  = (inr shown, record (EvAsk ("ANALOG? " ++ Py.str_of_int o) analog_types)
                       (snd (scpi_ask ("ANALOG? " ++ Py.str_of_int o) analog_types (dev w))) w).
Proof.
  intros H Ho Hraw Hshown. unfold get_analog_output_settings.
  erewrite bind_ok by (now apply use_range_parameter).
  erewrite bind_ok by (eapply get_analog_output_settings_body_run; eassumption).
  now apply analog_returns_run.
Qed.

Lemma overlay_astuple cur b m c s h l mv :
  map (fun cv : pyval * pyval => if is_none (snd cv) then fst cv else snd cv)
      (combine (astuple cur) [b; m; c; s; h; l; mv])
  = astuple (overlay cur b m c s h l mv).
Proof. reflexivity. Qed.



End Analog.

(** The bench instrument implements [ANALOG]. *)
Lemma Sim_honours_ANALOG : honours_ANALOG (T:=Sim.device) Sim.analog.
Proof.
  assert (outs : forall o, 1 <= o <= 2 -> o = 1 \/ o = 2) by (intros; lia).
  split.
  - reflexivity.
  - intros d o fields Ho. cbn. now rewrite Z.eqb_refl.
  - intros d o Ho. destruct (outs o Ho) as [->| ->]; reflexivity.
  - intros d o Ho. destruct (outs o Ho) as [->| ->]; reflexivity.
Qed.


(** ** Lakeshore 218: all temperatures *)

Section Fields.

Lemma split_comma_free a : comma_free a = true -> Py.split "," a = [a].
Proof.
  induction a as [|c a IH]; [reflexivity|].
  cbn [comma_free Py.split]. intros H. apply andb_prop in H as [Hc Ha].
  apply negb_true_iff in Hc. rewrite Hc, (IH Ha). reflexivity.
Qed.

Lemma split_field a rest :
  comma_free a = true ->
  Py.split "," (a ++ "," ++ rest) = a :: Py.split "," rest.
Proof.
  induction a as [|c a IH]; [reflexivity|].
  cbn [comma_free]. intros H. apply andb_prop in H as [Hc Ha].
  apply negb_true_iff in Hc. cbn [String.append Py.split]. rewrite Hc.
  cbn [String.append] in IH. now rewrite (IH Ha).
Qed.

Lemma split_join f fields :
  forallb comma_free (f :: fields) = true ->
  Py.split "," (Py.join "," (f :: fields)) = f :: fields.
Proof.
  revert f. induction fields as [|g fields IH]; intros f H.
  - cbn in H. rewrite andb_true_r in H. now apply split_comma_free.
  - cbn [forallb] in H. apply andb_prop in H as [Hf Hrest].
    change (Py.join "," (f :: g :: fields)) with (f ++ "," ++ Py.join "," (g :: fields)).
    rewrite split_field by assumption. f_equal. now apply IH.
Qed.

End Fields.

Section Temperatures.
Context {PF : PyFloat} {D : Type} {T : SCPIDevice D}.
Implicit Types w : world (D:=D).

Lemma comprehension_floats fields xs :
  Forall2 (fun f x => float_of_str (Py.strip f) = Some x) fields xs ->
  Lakeshore218.comprehension (fun x => py_float (Py.strip x)) fields = inr (map VFloat xs).
Proof.
  induction 1 as [|f x fields xs Hf _ IH]; [reflexivity|].
  cbn [Lakeshore218.comprehension map]. unfold py_float at 1. now rewrite Hf, IH.
Qed.

(** C9: [get_all_temperatures] issues exactly one query, [KRDG? 0] (the
    all-channels form), and when the reply is eight comma-separated fields
    it returns the eight floats they spell, in the order of the fields. *)
Theorem C9_get_all_temperatures w :
  log (snd (Lakeshore218.get_all_temperatures w))
  = (log w ++ [EvAsk "KRDG? 0" (DT TString)])%list /\
  forall fields xs,
    fst (scpi_ask "KRDG? 0" (DT TString) (dev w)) = inr (VStr (Py.join "," fields)) ->
    List.length fields = 8%nat ->
    forallb comma_free fields = true ->
    Forall2 (fun f x => float_of_str (Py.strip f) = Some x) fields xs ->
    fst (Lakeshore218.get_all_temperatures w) = inr (map VFloat xs) /\
    List.length xs = 8%nat.
Proof.
  unfold Lakeshore218.get_all_temperatures, bind. rewrite ask_run. split.
  - destruct (fst (scpi_ask "KRDG? 0" (DT TString) (dev w))) as [e|[]]; reflexivity.
  - intros fields xs Hreply Hlen Hfree Hparse. rewrite Hreply.
    destruct fields as [|f fields]; [discriminate|].
    rewrite split_join by assumption. unfold lift. cbn [fst].
    split; [now apply comprehension_floats|].
    now rewrite <- (Forall2_length Hparse).
Qed.

End Temperatures.

Lemma C9_get_all_temperatures_witness :
  fst (Lakeshore218.get_all_temperatures (Sim.fresh Sim.bench))
  = inr (map (VFloat (PF:=Sim.DecFloat))
           [294905000; 295001000; 77350000; 4215000; 0; 0; 0; 0]) /\
  List.length [294905000; 295001000; 77350000; 4215000; 0; 0; 0; 0] = 8%nat.
Proof.
  exact (proj2 (C9_get_all_temperatures (Sim.fresh Sim.bench))
           ["+294.905"; "+295.001"; "+77.350"; "+4.215"; "+0.000"; "+0.000"; "+0.000"; "+0.000"]
           [294905000; 295001000; 77350000; 4215000; 0; 0; 0; 0]
           eq_refl eq_refl eq_refl
           ltac:(repeat constructor)).
Defined.

(** ** Lakeshore 370: channel setup *)

Section Channel.
Context {PF : PyFloat} {D : Type} {T : SCPIDevice D}.
Implicit Types w : world (D:=D).

Lemma check_mode_rejects mode :
  Py.contains "IV" mode = false ->
  funcargparse.check_parameter_range mode "mode" "IV" = inl (ParameterError "mode").
Proof. intros H. unfold funcargparse.check_parameter_range. now rewrite H. Qed.

(** The strings that occur in ["IV"]. *)
Lemma contains_IV mode :
  Py.contains "IV" mode = true <-> In mode [""; "I"; "V"; "IV"].
Proof.
  split.
  - intros H. destruct mode as [|a mode]; [now left|].
    cbn [Py.contains Py.startswith orb] in H. rewrite !orb_false_r in H.
    apply orb_prop in H as [H|H]; apply andb_prop in H as [Ha H].
    + apply Ascii.eqb_eq in Ha. subst a. destruct mode as [|b mode].
      * right. now left.
      * cbn [Py.startswith] in H. apply andb_prop in H as [Hb H].
        apply Ascii.eqb_eq in Hb. subst b. destruct mode; [|discriminate].
        right. right. right. now left.
    + apply Ascii.eqb_eq in Ha. subst a. destruct mode; [|discriminate].
      right. right. now left.
  - intros [<-|[<-|[<-|[<-|[]]]]]; reflexivity.
Qed.

Lemma check_mode_accepts mode :
  mode = "I" \/ mode = "V" ->
  funcargparse.check_parameter_range mode "mode" "IV" = inr tt.
Proof. intros [-> | ->]; reflexivity. Qed.

(** The excitation-mode field of [RDGRNG]. *)
Lemma setup_channel_run channel mode exc_range res_range autorange w :
  mode = "I" \/ mode = "V" ->
  Lakeshore370.setup_channel channel mode exc_range res_range autorange w
  = write ("RDGRNG " ++ Py.format_2d (match channel with None => 0 | Some c => c end) ++ ","
           ++ (if String.eqb mode "V" then "0" else "1") ++ ","
           ++ Py.format_2d exc_range ++ "," ++ Py.format_2d res_range ++ ","
           ++ flag_digit autorange ++ ",0") None w.
Proof.
  intros Hmode. unfold Lakeshore370.setup_channel.
  erewrite bind_ok by (unfold lift; now rewrite check_mode_accepts).
  destruct Hmode as [-> | ->], autorange; reflexivity.
Qed.

(** C4: [setup_channel] checks the mode with [mode in "IV"], a substring
    test.  A mode that does not occur in ["IV"] raises the invalid-parameter
    error for [mode] and leaves the driver as it was: no command is sent.
    The modes that occur in ["IV"] are [""], ["I"], ["V"] and ["IV"]: for
    each of them the transcript grows by exactly one [RDGRNG] command, so
    the empty mode and the mode ["IV"], neither of which is "I" or "V", are
    not refused; they are sent with the mode field 1, as "I" is. *)
Theorem C4_setup_channel_mode_check channel mode exc_range res_range autorange w :
  (~ In mode [""; "I"; "V"; "IV"] ->
   Lakeshore370.setup_channel channel mode exc_range res_range autorange w
   = (inl (ParameterError "mode"), w)) /\
  (In mode [""; "I"; "V"; "IV"] ->
   log (snd (Lakeshore370.setup_channel channel mode exc_range res_range autorange w))
   = (log w ++
      [EvWrite ("RDGRNG "
                ++ Py.format_2d (match channel with None => 0 | Some c => c end) ++ ","
                ++ (if String.eqb mode "V" then "0" else "1") ++ ","
                ++ Py.format_2d exc_range ++ "," ++ Py.format_2d res_range ++ ","
                ++ flag_digit autorange ++ ",0") None])%list).
Proof.
  split.
  - intros Hmode. unfold Lakeshore370.setup_channel.
    erewrite bind_raise; [reflexivity|]. unfold lift. rewrite check_mode_rejects; [reflexivity|].
    destruct (Py.contains "IV" mode) eqn:E; [|reflexivity].
    apply contains_IV in E. contradiction.
  - intros Hmode. unfold Lakeshore370.setup_channel.
    erewrite bind_ok
      by (unfold lift, funcargparse.check_parameter_range;
          now rewrite (proj2 (contains_IV mode) Hmode)).
    rewrite write_log.
    destruct Hmode as [<-|[<-|[<-|[<-|[]]]]], autorange; reflexivity.
Qed.

(** C10: with the channel left out, [setup_channel] sends the [RDGRNG]
    command with channel number 0 (printed [" 0"]), the same command as for
    channel 0, and the driver itself raises nothing: the call succeeds when
    the link accepts the command. *)
Theorem C10_setup_channel_default_channel mode exc_range res_range autorange w :
  mode = "I" \/ mode = "V" ->
  Lakeshore370.setup_channel None mode exc_range res_range autorange w
  = Lakeshore370.setup_channel (Some 0) mode exc_range res_range autorange w /\
  exists fields,
    log (snd (Lakeshore370.setup_channel None mode exc_range res_range autorange w))
    = (log w ++ [EvWrite ("RDGRNG  0," ++ fields) None])%list /\
    (fst (scpi_write ("RDGRNG  0," ++ fields) None (dev w)) = None ->
     fst (Lakeshore370.setup_channel None mode exc_range res_range autorange w) = inr tt).
Proof.
  intros Hmode. split; [reflexivity|].
  rewrite setup_channel_run by assumption.
  eexists. split.
  - rewrite write_log. reflexivity.
  - intros Hw. cbn [String.append Py.format_2d] in *.
    now rewrite write_surj.
Qed.

End Channel.

Lemma C4_setup_channel_mode_check_witness :
  Lakeshore370.setup_channel None "X" 1 22 true (Sim.fresh Sim.bench)
  = (inl (ParameterError "mode"), Sim.fresh Sim.bench) /\
  log (snd (Lakeshore370.setup_channel None "IV" 1 22 true (Sim.fresh Sim.bench)))
  = ([] ++ [EvWrite "RDGRNG  0,1, 1,22,1,0" None])%list /\
  log (snd (Lakeshore370.setup_channel None "" 1 22 true (Sim.fresh Sim.bench)))
  = ([] ++ [EvWrite "RDGRNG  0,1, 1,22,1,0" None])%list.
Proof.
  split; [|split].
  - apply (proj1 (C4_setup_channel_mode_check None "X" 1 22 true (Sim.fresh Sim.bench))).
    cbn. intros [H|[H|[H|[H|[]]]]]; discriminate.
  - apply (proj2 (C4_setup_channel_mode_check None "IV" 1 22 true (Sim.fresh Sim.bench))).
    cbn. tauto.
  - apply (proj2 (C4_setup_channel_mode_check None "" 1 22 true (Sim.fresh Sim.bench))).
    cbn. tauto.
Defined.

Lemma C10_setup_channel_default_channel_witness :
  Lakeshore370.setup_channel None "V" 1 22 true (Sim.fresh Sim.bench)
  = Lakeshore370.setup_channel (Some 0) "V" 1 22 true (Sim.fresh Sim.bench) /\
  exists fields,
    log (snd (Lakeshore370.setup_channel None "V" 1 22 true (Sim.fresh Sim.bench)))
    = ([] ++ [EvWrite ("RDGRNG  0," ++ fields) None])%list /\
    (fst (scpi_write ("RDGRNG  0," ++ fields) None Sim.bench) = None ->
     fst (Lakeshore370.setup_channel None "V" 1 22 true (Sim.fresh Sim.bench)) = inr tt).
Proof.
  exact (C10_setup_channel_default_channel "V" 1 22 true (Sim.fresh Sim.bench)
           (or_intror eq_refl)).
Defined.

(** With the defaults of the signature the command reads as follows. *)
Lemma setup_channel_defaults :
  Lakeshore370.setup_channel None "V" 1 22 true (Sim.fresh Sim.bench)
  = (inr tt, mkWorld Sim.bench [EvWrite "RDGRNG  0,0, 1,22,1,0" None] []).
Proof. reflexivity. Qed.

(** ** Lakeshore 370: analog output *)

Section AnalogOutput370.
Context {PF : PyFloat} {D : Type} {T : SCPIDevice D}.
Implicit Types w : world (D:=D).

Lemma append_cancel (a b c : string) : a ++ b = a ++ c -> b = c.
Proof.
  induction a as [|x a IH]; cbn [String.append]; [trivial|].
  intros [= E]. now apply IH.
Qed.

Lemma write_then_ask cmd qry dt w :
  log (snd ((write cmd None ;; ask qry dt) w))
  = (log w ++ EvWrite cmd None ::
       match fst (scpi_write cmd None (dev w)) with
       | Some _ => []
       | None => [EvAsk qry dt]
       end)%list.
Proof.
  unfold bind, write, outcome.
  destruct (scpi_write cmd None (dev w)) as [[e|] d1]; cbn [fst snd]; [reflexivity|].
  rewrite ask_run. cbn. now rewrite <- app_assoc.
Qed.

(** C6: [set_analog_output(channel, value)] sends
    [ANALOG <channel>,0,0,1,1,500.,0,0.] when [value == 0] and
    [ANALOG <channel>,0,2,1,1,500.,0,<value>] with the value printed by
    ["{:f}"] otherwise; it is the one command sent (the [AOUT?] query
    follows when the link accepts it), and the two forms are never the same
    command. *)
Theorem C6_set_analog_output_forms channel value w :
  (py_eq_zero value = true ->
   log (snd (Lakeshore370.set_analog_output channel value w))
   = (log w ++ EvWrite ("ANALOG " ++ py_str channel ++ ",0,0,1,1,500.,0,0.") None ::
        match fst (scpi_write ("ANALOG " ++ py_str channel ++ ",0,0,1,1,500.,0,0.") None
                     (dev w)) with
        | Some _ => []
        | None => [EvAsk ("AOUT? " ++ py_str channel) (DT TFloat)]
        end)%list) /\
  (forall v, py_eq_zero value = false -> py_format_f value = inr v ->
   log (snd (Lakeshore370.set_analog_output channel value w))
   = (log w ++ EvWrite ("ANALOG " ++ py_str channel ++ ",0,2,1,1,500.,0," ++ v) None ::
        match fst (scpi_write ("ANALOG " ++ py_str channel ++ ",0,2,1,1,500.,0," ++ v) None
                     (dev w)) with
        | Some _ => []
        | None => [EvAsk ("AOUT? " ++ py_str channel) (DT TFloat)]
        end)%list) /\
  (forall v, "ANALOG " ++ py_str channel ++ ",0,0,1,1,500.,0,0."
             <> "ANALOG " ++ py_str channel ++ ",0,2,1,1,500.,0," ++ v).
Proof.
  repeat split.
  - intros Hz. unfold Lakeshore370.set_analog_output, Lakeshore370.get_analog_output.
    rewrite Hz. apply write_then_ask.
  - intros v Hz Hv. unfold Lakeshore370.set_analog_output, Lakeshore370.get_analog_output.
    rewrite Hz.
    replace (v0 <- lift (py_format_f value);;
             write ("ANALOG " ++ py_str channel ++ ",0,2,1,1,500.,0," ++ v0) None)
      with (write ("ANALOG " ++ py_str channel ++ ",0,2,1,1,500.,0," ++ v) None).
    + apply write_then_ask.
    + unfold bind, lift. now rewrite Hv.
  - intros v E. apply append_cancel in E. apply append_cancel in E. discriminate.
Qed.

End AnalogOutput370.

Lemma C6_set_analog_output_forms_witness :
  log (snd (Lakeshore370.set_analog_output (VInt 1) (VInt 0) (Sim.fresh Sim.bench)))
  = [EvWrite "ANALOG 1,0,0,1,1,500.,0,0." None; EvAsk "AOUT? 1" (DT TFloat)] /\
  log (snd (Lakeshore370.set_analog_output (VInt 1) (Sim.fl "3.5") (Sim.fresh Sim.bench)))
  = [EvWrite "ANALOG 1,0,2,1,1,500.,0,3.500000" None; EvAsk "AOUT? 1" (DT TFloat)].
Proof.
  split.
  - exact (proj1 (C6_set_analog_output_forms (VInt 1) (VInt 0) (Sim.fresh Sim.bench))
             eq_refl).
  - exact (proj1 (proj2 (C6_set_analog_output_forms (VInt 1) (Sim.fl "3.5")
                           (Sim.fresh Sim.bench)))
             "3.500000" eq_refl eq_refl).
Defined.

(** ** Lakeshore 370: open-loop heater *)

Section Heater.
Context {PF : PyFloat} {D : Type} {T : SCPIDevice D}.
Implicit Types w : world (D:=D).

(** The four commands of [setup_heater_openloop]. *)
Lemma setup_heater_openloop_run heater_range heater_percent heater_res res percent w :
  py_format_f heater_res = inr res -> py_format_f heater_percent = inr percent ->
  Lakeshore370.setup_heater_openloop heater_range heater_percent heater_res w
  = (write "CMODE 3" None ;;
     write ("CSET 1,0,1,25,1," ++ py_str heater_range ++ "," ++ res) None ;;
     write ("HTRRNG " ++ py_str heater_range) None ;;
     write ("MOUT " ++ percent) None) w.
Proof.
  intros Hres Hpercent. unfold Lakeshore370.setup_heater_openloop, bind, lift.
  rewrite Hres, Hpercent. reflexivity.
Qed.

(** C2: for a heater resistance and a percentage that are numbers,
    [setup_heater_openloop] issues four commands and no other, in this
    order: [CMODE 3] (mode selection), [CSET 1,0,1,25,1,<range>,<res>]
    (control-loop setup), [HTRRNG <range>] (range), [MOUT <percent>] (output
    percent).  When the link accepts each of them in turn, all four are sent
    and the call returns; when the link refuses one, the ones before it and
    that one have been sent, no later one is, and the error of the refused
    command is raised. *)
Theorem C2_setup_heater_openloop_sequence
    heater_range heater_percent heater_res res percent w :
  py_format_f heater_res = inr res -> py_format_f heater_percent = inr percent ->
  (forall d1 d2 d3 d4,
     scpi_write "CMODE 3" None (dev w) = (None, d1) ->
     scpi_write ("CSET 1,0,1,25,1," ++ py_str heater_range ++ "," ++ res) None d1
     = (None, d2) ->
     scpi_write ("HTRRNG " ++ py_str heater_range) None d2 = (None, d3) ->
     scpi_write ("MOUT " ++ percent) None d3 = (None, d4) ->
     Lakeshore370.setup_heater_openloop heater_range heater_percent heater_res w
     = (inr tt,
        mkWorld d4
          (log w ++ [EvWrite "CMODE 3" None;
                     EvWrite ("CSET 1,0,1,25,1," ++ py_str heater_range ++ "," ++ res) None;
                     EvWrite ("HTRRNG " ++ py_str heater_range) None;
                     EvWrite ("MOUT " ++ percent) None])
          (variables w))) /\
  (forall e d1,
     scpi_write "CMODE 3" None (dev w) = (Some e, d1) ->
     Lakeshore370.setup_heater_openloop heater_range heater_percent heater_res w
     = (inl e, mkWorld d1 (log w ++ [EvWrite "CMODE 3" None]) (variables w))) /\
  (forall e d1 d2,
     scpi_write "CMODE 3" None (dev w) = (None, d1) ->
     scpi_write ("CSET 1,0,1,25,1," ++ py_str heater_range ++ "," ++ res) None d1
     = (Some e, d2) ->
     Lakeshore370.setup_heater_openloop heater_range heater_percent heater_res w
     = (inl e,
        mkWorld d2
          (log w ++ [EvWrite "CMODE 3" None;
                     EvWrite ("CSET 1,0,1,25,1," ++ py_str heater_range ++ "," ++ res) None])
          (variables w))) /\
  (forall e d1 d2 d3,
     scpi_write "CMODE 3" None (dev w) = (None, d1) ->
     scpi_write ("CSET 1,0,1,25,1," ++ py_str heater_range ++ "," ++ res) None d1
     = (None, d2) ->
     scpi_write ("HTRRNG " ++ py_str heater_range) None d2 = (Some e, d3) ->
     Lakeshore370.setup_heater_openloop heater_range heater_percent heater_res w
     = (inl e,
        mkWorld d3
          (log w ++ [EvWrite "CMODE 3" None;
                     EvWrite ("CSET 1,0,1,25,1," ++ py_str heater_range ++ "," ++ res) None;
                     EvWrite ("HTRRNG " ++ py_str heater_range) None])
          (variables w))) /\
  (forall e d1 d2 d3 d4,
     scpi_write "CMODE 3" None (dev w) = (None, d1) ->
     scpi_write ("CSET 1,0,1,25,1," ++ py_str heater_range ++ "," ++ res) None d1
     = (None, d2) ->
     scpi_write ("HTRRNG " ++ py_str heater_range) None d2 = (None, d3) ->
     scpi_write ("MOUT " ++ percent) None d3 = (Some e, d4) ->
     Lakeshore370.setup_heater_openloop heater_range heater_percent heater_res w
     = (inl e,
        mkWorld d4
          (log w ++ [EvWrite "CMODE 3" None;
                     EvWrite ("CSET 1,0,1,25,1," ++ py_str heater_range ++ "," ++ res) None;
                     EvWrite ("HTRRNG " ++ py_str heater_range) None;
                     EvWrite ("MOUT " ++ percent) None])
          (variables w))).
Proof.
  intros Hres Hpercent.
  rewrite (setup_heater_openloop_run _ _ _ _ _ w Hres Hpercent).
  repeat apply conj.
  - intros d1 d2 d3 d4 H1 H2 H3 H4.
    erewrite bind_ok by (apply write_ok; eassumption).
    erewrite bind_ok by (apply write_ok; cbn [dev record]; eassumption).
    erewrite bind_ok by (apply write_ok; cbn [dev record]; eassumption).
    erewrite write_ok by (cbn [dev record]; eassumption).
    unfold record. cbn [dev log variables]. now rewrite <- !app_assoc.
  - intros e d1 H1.
    erewrite bind_raise by (apply write_refused; eassumption). reflexivity.
  - intros e d1 d2 H1 H2.
    erewrite bind_ok by (apply write_ok; eassumption).
    erewrite bind_raise by (apply write_refused; cbn [dev record]; eassumption).
    unfold record. cbn [dev log variables]. now rewrite <- !app_assoc.
  - intros e d1 d2 d3 H1 H2 H3.
    erewrite bind_ok by (apply write_ok; eassumption).
    erewrite bind_ok by (apply write_ok; cbn [dev record]; eassumption).
    erewrite bind_raise by (apply write_refused; cbn [dev record]; eassumption).
    unfold record. cbn [dev log variables]. now rewrite <- !app_assoc.
  - intros e d1 d2 d3 d4 H1 H2 H3 H4.
    erewrite bind_ok by (apply write_ok; eassumption).
    erewrite bind_ok by (apply write_ok; cbn [dev record]; eassumption).
    erewrite bind_ok by (apply write_ok; cbn [dev record]; eassumption).
    erewrite write_refused by (cbn [dev record]; eassumption).
    unfold record. cbn [dev log variables]. now rewrite <- !app_assoc.
Qed.

Lemma nth_error_strip fields i field :
  nth_error fields i = Some field ->
  nth_error (map Py.strip fields) i = Some (Py.strip field).
Proof. intros E. now rewrite nth_error_map, E. Qed.

(** C3: [get_heater_settings_openloop] issues three queries in this order,
    [CSET?] (several comma-separated fields), [MOUT?] (one float) and
    [HTRRNG?] (one integer), and returns the range from [HTRRNG?], the
    percentage from [MOUT?], and as the resistance the float spelled by the
    seventh comma-separated field (index 6) of the [CSET?] reply. *)
Theorem C3_get_heater_settings_openloop w reply d1 heater_percent d2 heater_range d3 field x :
  scpi_ask "CSET?" (DT TString) (dev w) = (inr (VStr reply), d1) ->
  scpi_ask "MOUT?" (DT TFloat) d1 = (inr heater_percent, d2) ->
  scpi_ask "HTRRNG?" (DT TInt) d2 = (inr heater_range, d3) ->
  nth_error (Py.split "," reply) 6 = Some field ->
  float_of_str (Py.strip field) = Some x ->
  Lakeshore370.get_heater_settings_openloop w
  = (inr (heater_range, heater_percent, VFloat x),
     mkWorld d3
       (log w ++ [EvAsk "CSET?" (DT TString); EvAsk "MOUT?" (DT TFloat);
                  EvAsk "HTRRNG?" (DT TInt)])
       (variables w)).
Proof.
  intros Hcset Hmout Hrange Hfield Hfloat.
  unfold Lakeshore370.get_heater_settings_openloop, bind.
  rewrite ask_run, Hcset. cbn [fst snd].
  rewrite ask_run. cbn [dev record]. rewrite Hmout. cbn [fst snd].
  rewrite ask_run. cbn [dev record]. rewrite Hrange. cbn [fst snd].
  rewrite (nth_error_strip _ _ _ Hfield).
  unfold lift, py_float, ret. rewrite Hfloat.
  unfold record. cbn [log variables]. now rewrite <- !app_assoc.
Qed.

End Heater.

Lemma Sim_writes_accepted : writes_accepted (T:=Sim.device).
Proof.
  intros msg arg d. cbn. unfold Sim.sim_write.
  destruct arg as [[|[] fields]|];
    repeat match goal with
           | |- context [match ?x with _ => _ end] => destruct x
           end; reflexivity.
Qed.

Lemma C2_setup_heater_openloop_sequence_witness :
  Lakeshore370.setup_heater_openloop (VInt 3) (Sim.fl "50.0") (Sim.fl "100.0")
    (Sim.fresh Sim.bench)
  = (inr tt,
     mkWorld Sim.bench
       ([] ++ [EvWrite "CMODE 3" None; EvWrite "CSET 1,0,1,25,1,3,100.000000" None;
               EvWrite "HTRRNG 3" None; EvWrite "MOUT 50.000000" None])
       []) /\
  Lakeshore370.setup_heater_openloop (T:=Script.refusing) (VInt 3) (Sim.fl "50.0")
    (Sim.fl "100.0") (Script.fresh [])
  = (inl (DeviceError "timeout"), mkWorld [] ([] ++ [EvWrite "CMODE 3" None]) []).
Proof.
  split.
  - exact (proj1 (C2_setup_heater_openloop_sequence (VInt 3) (Sim.fl "50.0") (Sim.fl "100.0")
                    "100.000000" "50.000000" (Sim.fresh Sim.bench) eq_refl eq_refl)
             Sim.bench Sim.bench Sim.bench Sim.bench eq_refl eq_refl eq_refl eq_refl).
  - exact (proj1 (proj2 (C2_setup_heater_openloop_sequence (T:=Script.refusing) (VInt 3)
                           (Sim.fl "50.0") (Sim.fl "100.0") "100.000000" "50.000000"
                           (Script.fresh []) eq_refl eq_refl))
             (DeviceError "timeout") [] eq_refl).
Defined.

(** The claim as stated fails three ways.  With numbers and a link that
    accepts every command the sequence has four commands, not three.  With a
    resistance that is not a number (a string) only [CMODE 3] is sent before
    the formatting of the [CSET] command raises.  On a link that refuses the
    first command only [CMODE 3] is sent and the error is raised. *)
Lemma C2_three_commands_counterexample :
  List.length (sent (Lakeshore370.setup_heater_openloop (VInt 3) (Sim.fl "50.0")
                       (Sim.fl "100.0"))
                    (Sim.fresh Sim.bench)) <> 3%nat /\
  Lakeshore370.setup_heater_openloop (VInt 3) (Sim.fl "50.0") (VStr "abc")
    (Sim.fresh Sim.bench)
  = (inl ValueError, mkWorld Sim.bench [EvWrite "CMODE 3" None] []) /\
  Lakeshore370.setup_heater_openloop (T:=Script.refusing) (VInt 3) (Sim.fl "50.0")
    (Sim.fl "100.0") (Script.fresh [])
  = (inl (DeviceError "timeout"), mkWorld [] [EvWrite "CMODE 3" None] []).
Proof.
  split; [vm_compute; discriminate|]. split; reflexivity.
Qed.

Lemma C3_get_heater_settings_openloop_witness :
  Lakeshore370.get_heater_settings_openloop (Sim.fresh Sim.bench)
  = (inr (VInt 3, Sim.fl "50.0", Sim.fl "100.0"),
     mkWorld Sim.bench
       ([] ++ [EvAsk "CSET?" (DT TString); EvAsk "MOUT?" (DT TFloat);
               EvAsk "HTRRNG?" (DT TInt)])
       []).
Proof.
  exact (C3_get_heater_settings_openloop (Sim.fresh Sim.bench)
           "1,0,1,25,1,3,100.000" Sim.bench (Sim.fl "50.0") Sim.bench (VInt 3) Sim.bench
           "100.000" 100000000 eq_refl eq_refl eq_refl eq_refl eq_refl).
Defined.

(** The settings are read with three queries, not two. *)
Lemma C3_two_queries_counterexample :
  List.length (filter is_query
                 (sent Lakeshore370.get_heater_settings_openloop (Sim.fresh Sim.bench)))
  <> 2%nat.
Proof. vm_compute. discriminate. Qed.

(** ** Construction *)

Section Construction.
Context {PF : PyFloat} {D : Type} {T : SCPIDevice D}.
Implicit Types w : world (D:=D).

Lemma init_ok conn backend term_write term_read w d1 :
  scpi_init conn backend term_write term_read (dev w) = (None, d1) ->
  init conn backend term_write term_read w
  = (inr tt, record (EvInit conn backend term_write term_read) d1 w).
Proof. intros E. unfold init, outcome. now rewrite E. Qed.

(** The identification query and what the constructors do when it fails
    with a transport error. *)
Lemma identification_failure info w d2 :
  scpi_get_id 2000 (dev w) = (inl (DeviceError info), d2) ->
  try_except (get_id 2000 ;; ret tt)
    (fun e => if is_instr_error e then close ;; raise (BackendOpenError e) else raise e) w
  = (inl (BackendOpenError (DeviceError info)),
     mkWorld (scpi_close d2) (log w ++ [EvGetId 2000; EvClose]) (variables w)).
Proof.
  intros E. unfold try_except, bind, get_id. rewrite E.
  cbn [is_instr_error]. unfold close, raise, record. cbn [dev log variables].
  now rewrite <- app_assoc.
Qed.

(** C7: in both constructors, when the identification query (two-second
    timeout) fails with a transport error, the constructor closes the
    connection, the close being the last thing it does, and raises the
    connection-open error built from that transport error. *)
Theorem C7_constructor_closes_on_failed_identification conn w info d1 d2 :
  (scpi_init (comm_backend.combine_conn conn Lakeshore218.default_conn)
     (Some "serial") (Some Lakeshore218.CRLF) (Some Lakeshore218.CRLF) (dev w) = (None, d1) ->
   scpi_get_id 2000 d1 = (inl (DeviceError info), d2) ->
   fst (Lakeshore218.__init__ conn w) = inl (BackendOpenError (DeviceError info)) /\
   log (snd (Lakeshore218.__init__ conn w))
   = (log w ++ [EvInit (comm_backend.combine_conn conn Lakeshore218.default_conn)
                  (Some "serial") (Some Lakeshore218.CRLF) (Some Lakeshore218.CRLF);
                EvGetId 2000; EvClose])%list /\
   dev (snd (Lakeshore218.__init__ conn w)) = scpi_close d2) /\
  (scpi_init conn None None None (dev w) = (None, d1) ->
   scpi_get_id 2000 d1 = (inl (DeviceError info), d2) ->
   fst (Lakeshore370.__init__ conn w) = inl (BackendOpenError (DeviceError info)) /\
   log (snd (Lakeshore370.__init__ conn w))
   = (log w ++ [EvInit conn None None None; EvGetId 2000; EvClose])%list /\
   dev (snd (Lakeshore370.__init__ conn w)) = scpi_close d2).
Proof.
  split; intros Hinit Hid.
  - unfold Lakeshore218.__init__.
    erewrite bind_ok by (apply init_ok; eassumption).
    do 7 (erewrite bind_ok by reflexivity).
    erewrite identification_failure by (cbn [dev record]; eassumption).
    cbn [fst snd dev log record]. repeat split. now rewrite <- app_assoc.
  - unfold Lakeshore370.__init__.
    erewrite bind_ok by (apply init_ok; eassumption).
    erewrite identification_failure by (cbn [dev record]; eassumption).
    cbn [fst snd dev log record]. repeat split. now rewrite <- app_assoc.
Qed.

End Construction.

Lemma C7_constructor_closes_on_failed_identification_witness :
  (fst (Lakeshore218.__init__ [VStr "COM3"] (Sim.fresh Sim.silent))
   = inl (BackendOpenError (DeviceError "timeout")) /\
   log (snd (Lakeshore218.__init__ [VStr "COM3"] (Sim.fresh Sim.silent)))
   = ([] ++ [EvInit [VStr "COM3"; VInt 9600; VInt 7; VStr "E"; VInt 1]
               (Some "serial") (Some Lakeshore218.CRLF) (Some Lakeshore218.CRLF);
             EvGetId 2000; EvClose])%list /\
   dev (snd (Lakeshore218.__init__ [VStr "COM3"] (Sim.fresh Sim.silent)))
   = Sim.set_open false (Sim.set_open true Sim.silent)) /\
  (fst (Lakeshore370.__init__ [VStr "COM3"] (Sim.fresh Sim.silent))
   = inl (BackendOpenError (DeviceError "timeout")) /\
   log (snd (Lakeshore370.__init__ [VStr "COM3"] (Sim.fresh Sim.silent)))
   = ([] ++ [EvInit [VStr "COM3"] None None None; EvGetId 2000; EvClose])%list /\
   dev (snd (Lakeshore370.__init__ [VStr "COM3"] (Sim.fresh Sim.silent)))
   = Sim.set_open false (Sim.set_open true Sim.silent)).
Proof.
  split.
  - exact (proj1 (C7_constructor_closes_on_failed_identification [VStr "COM3"]
                    (Sim.fresh Sim.silent) "timeout"
                    (Sim.set_open true Sim.silent) (Sim.set_open true Sim.silent))
             eq_refl eq_refl).
  - exact (proj2 (C7_constructor_closes_on_failed_identification [VStr "COM3"]
                    (Sim.fresh Sim.silent) "timeout"
                    (Sim.set_open true Sim.silent) (Sim.set_open true Sim.silent))
             eq_refl eq_refl).
Defined.

(** ** Lakeshore 218: filter settings *)

Section Filter.
Context {PF : PyFloat} {D : Type} {T : SCPIDevice D}.
Implicit Types w : world (D:=D).
Import Lakeshore218.

Lemma use_parameter_rejects name lo hi z w :
  z < lo \/ hi < z ->
  interface.use_parameter (interface.RangeParameterClass name lo hi) (VInt z) w
  = (inl (ParameterError name), w).
Proof.
  intros H. unfold interface.use_parameter, lift.
  cbn [is_none interface.to_device interface.in_range].
  replace ((lo <=? z) && (z <=? hi)) with false; [reflexivity|].
  symmetry. apply andb_false_iff. destruct H; [left|right]; now apply Z.leb_gt.
Qed.

Lemma filter_overlay_astuple cur e p wd :
  map (fun cv : pyval * pyval => if is_none (snd cv) then fst cv else snd cv)
      (combine (filter_astuple cur) [e; p; wd])
  = filter_astuple (filter_overlay cur e p wd).
Proof. reflexivity. Qed.

Lemma get_filter_settings_body_run fl c cur w :
  honours_FILTER fl -> 1 <= c <= 8 -> fl (dev w) c = filter_astuple cur ->
  get_filter_settings_body (VInt c) w
  = (inr cur, record (EvAsk ("FILTER? " ++ Py.str_of_int c) filter_types)
                     (snd (scpi_ask ("FILTER? " ++ Py.str_of_int c) filter_types (dev w))) w).
Proof.
  intros H Hc Hcur. unfold get_filter_settings_body. cbn [py_str py_repr].
  unfold bind. rewrite ask_run, (FILTER_reported H), Hcur by assumption.
  now destruct cur.
Qed.

Lemma get_filter_settings_run fl c cur w :
  honours_FILTER fl -> 1 <= c <= 8 -> fl (dev w) c = filter_astuple cur ->
  get_filter_settings (VInt c) w
  = (inr cur, record (EvAsk ("FILTER? " ++ Py.str_of_int c) filter_types)
                     (snd (scpi_ask ("FILTER? " ++ Py.str_of_int c) filter_types (dev w))) w).
Proof.
  intros H Hc Hcur. unfold get_filter_settings.
  erewrite bind_ok by (now apply use_range_parameter).
  now apply (get_filter_settings_body_run fl).
Qed.

(** X1: for an input c in 1..8, on an instrument that implements [FILTER],
    [setup_filter] queries the settings, writes all three fields with each
    field passed as [None] taken from the reply, queries again, and returns
    the prior settings with exactly the given fields replaced; a following
    [get_filter_settings] returns the same. *)
Theorem X1_setup_filter_overlays fl c e p wd cur w :
  honours_FILTER fl -> 1 <= c <= 8 -> fl (dev w) c = filter_astuple cur ->
  fst (setup_filter (VInt c) e p wd w) = inr (filter_overlay cur e p wd) /\
  log (snd (setup_filter (VInt c) e p wd w))
  = (log w ++ [EvAsk ("FILTER? " ++ Py.str_of_int c) filter_types;
               EvWrite "FILTER"
                 (Some (VInt c :: filter_astuple (filter_overlay cur e p wd)));
               EvAsk ("FILTER? " ++ Py.str_of_int c) filter_types])%list /\
  fst (get_filter_settings (VInt c) (snd (setup_filter (VInt c) e p wd w)))
  = inr (filter_overlay cur e p wd).
Proof.
  intros H Hc Hcur. unfold setup_filter.
  erewrite bind_ok by (eapply get_filter_settings_body_run; eassumption).
  rewrite filter_overlay_astuple.
  erewrite bind_ok by (apply write_surj; now apply (FILTER_accepted H)).
  cbn [dev record].
  set (d1 := snd (scpi_ask _ filter_types (dev w))).
  set (d2 := snd (scpi_write "FILTER" _ d1)).
  assert (Hd2 : fl d2 c = filter_astuple (filter_overlay cur e p wd)).
  { subst d2. now apply (FILTER_stored H). }
  match goal with
  | |- context [get_filter_settings (VInt c) ?w2] =>
      rewrite (get_filter_settings_run fl c _ w2 H Hc Hd2)
  end.
  cbn [fst snd log record dev]. split; [reflexivity|]. split.
  { now rewrite <- !app_assoc. }
  assert (Hd3 : fl (snd (scpi_ask ("FILTER? " ++ Py.str_of_int c) filter_types d2)) c
               = filter_astuple (filter_overlay cur e p wd)).
  { now rewrite (FILTER_query_pure H). }
  match goal with
  | |- context [get_filter_settings (VInt c) ?w3] =>
      now rewrite (get_filter_settings_run fl c _ w3 H Hc Hd3)
  end.
Qed.

Lemma get_filter_settings_body_reply c a b k d1 w :
  scpi_ask ("FILTER? " ++ Py.str_of_int c) filter_types (dev w) = (inr (VList [a; b; k]), d1) ->
  get_filter_settings_body (VInt c) w
  = (inr (mkFilter a b k),
     record (EvAsk ("FILTER? " ++ Py.str_of_int c) filter_types) d1 w).
Proof.
  intros Hask. unfold get_filter_settings_body. cbn [py_str py_repr].
  unfold bind. rewrite ask_run, Hask. reflexivity.
Qed.

(** X2: [setup_filter] does not check its channel before it talks to the
    instrument: for a channel outside 1..8 whose query is answered and whose
    command is accepted, the [FILTER?] query and the [FILTER] command for
    that channel have both been sent when the invalid-parameter error for
    [channel] is raised by the final read-back. *)
Theorem X2_setup_filter_checks_channel_last c e p wd a b k d1 d2 w :
  c < 1 \/ 8 < c ->
  scpi_ask ("FILTER? " ++ Py.str_of_int c) filter_types (dev w) = (inr (VList [a; b; k]), d1) ->
  scpi_write "FILTER"
    (Some (VInt c :: filter_astuple (filter_overlay (mkFilter a b k) e p wd))) d1
  = (None, d2) ->
  setup_filter (VInt c) e p wd w
  = (inl (ParameterError "channel"),
     mkWorld d2
       (log w ++ [EvAsk ("FILTER? " ++ Py.str_of_int c) filter_types;
                  EvWrite "FILTER"
                    (Some (VInt c :: filter_astuple (filter_overlay (mkFilter a b k) e p wd)))])
       (variables w)).
Proof.
  intros Hc Hask Hwrite. unfold setup_filter.
  erewrite bind_ok by (apply get_filter_settings_body_reply; eassumption).
  rewrite filter_overlay_astuple.
  erewrite bind_ok by (apply write_ok; cbn [dev record]; eassumption).
  unfold get_filter_settings.
  erewrite bind_raise by (now apply use_parameter_rejects).
  unfold record. cbn [dev log variables]. now rewrite <- app_assoc.
Qed.

(** X3: the decorated single-channel methods of the 218 check the channel
    before anything is sent: for an integer channel outside 1..8 each of
    [is_enabled], [set_enabled], [get_temperature], [get_sensor_reading]
    and [get_filter_settings] raises the invalid-parameter error for
    [channel] and leaves the driver and the transcript as they were. *)
Theorem X3_channel_checked_before_sending c w :
  c < 1 \/ 8 < c ->
  is_enabled (VInt c) w = (inl (ParameterError "channel"), w) /\
  (forall b, set_enabled (VInt c) b w = (inl (ParameterError "channel"), w)) /\
  get_temperature (VInt c) w = (inl (ParameterError "channel"), w) /\
  get_sensor_reading (VInt c) w = (inl (ParameterError "channel"), w) /\
  get_filter_settings (VInt c) w = (inl (ParameterError "channel"), w).
Proof.
  intros Hc.
  repeat split; intros;
    unfold is_enabled, set_enabled, get_temperature, get_sensor_reading, get_filter_settings;
    now erewrite bind_raise by (now apply use_parameter_rejects).
Qed.

End Filter.

(** The filter bench implements [FILTER]. *)
Lemma FilterSim_honours_FILTER :
  honours_FILTER (T:=FilterSim.device) (fun st c => st c).
Proof.
  assert (cases : forall c, 1 <= c <= 8 -> In c Sim.channels).
  { intros c Hc. unfold Sim.channels, In. lia. }
  split.
  - reflexivity.
  - intros d c fields Hc. cbn. now rewrite Z.eqb_refl.
  - intros d c Hc. apply cases in Hc. cbn in Hc.
    repeat (destruct Hc as [<-|Hc]; [reflexivity|]). contradiction.
  - intros d c Hc. apply cases in Hc. cbn in Hc.
    repeat (destruct Hc as [<-|Hc]; [reflexivity|]). contradiction.
Qed.

Lemma X1_setup_filter_overlays_witness :
  fst (Lakeshore218.setup_filter (T:=FilterSim.device) (VInt 3) (VBool true) VNone (VInt 5)
         (FilterSim.fresh FilterSim.bench))
  = inr (Lakeshore218.mkFilter (VBool true) (VInt 8) (VInt 5)).
Proof.
  exact (proj1 (X1_setup_filter_overlays (T:=FilterSim.device) (fun st c => st c) 3
                  (VBool true) VNone (VInt 5)
                  (Lakeshore218.mkFilter (VBool false) (VInt 8) (VInt 2))
                  (FilterSim.fresh FilterSim.bench)
                  FilterSim_honours_FILTER ltac:(lia) eq_refl)).
Defined.

Lemma X2_setup_filter_checks_channel_last_witness :
  Lakeshore218.setup_filter (T:=Script.device) (VInt 9) (VBool true) VNone (VInt 5)
    (Script.fresh [("FILTER? 9", VList [VBool false; VInt 8; VInt 2])])
  = (inl (ParameterError "channel"),
     mkWorld [("FILTER? 9", VList [VBool false; VInt 8; VInt 2])]
       ([] ++ [EvAsk "FILTER? 9" Lakeshore218.filter_types;
               EvWrite "FILTER" (Some [VInt 9; VBool true; VInt 8; VInt 5])])
       []).
Proof.
  exact (X2_setup_filter_checks_channel_last (T:=Script.device) 9 (VBool true) VNone (VInt 5)
           (VBool false) (VInt 8) (VInt 2)
           [("FILTER? 9", VList [VBool false; VInt 8; VInt 2])]
           [("FILTER? 9", VList [VBool false; VInt 8; VInt 2])]
           (Script.fresh [("FILTER? 9", VList [VBool false; VInt 8; VInt 2])])
           ltac:(lia) eq_refl eq_refl).
Defined.

Lemma X3_channel_checked_before_sending_witness :
  Lakeshore218.is_enabled (VInt 9) (Sim.fresh Sim.bench)
  = (inl (ParameterError "channel"), Sim.fresh Sim.bench) /\
  Lakeshore218.get_temperature (VInt 0) (Sim.fresh Sim.bench)
  = (inl (ParameterError "channel"), Sim.fresh Sim.bench).
Proof.
  split.
  - exact (proj1 (X3_channel_checked_before_sending 9 (Sim.fresh Sim.bench) ltac:(lia))).
  - exact (proj1 (proj2 (proj2 (X3_channel_checked_before_sending 0 (Sim.fresh Sim.bench)
                                  ltac:(lia))))).
Defined.

(** ** Lakeshore 218: analog output, checks and the convenience wrapper *)

Section AnalogValue.
Context {PF : PyFloat} {D : Type} {T : SCPIDevice D}.
Implicit Types w : world (D:=D).
Import Lakeshore218.

Lemma use_enum_rejects name vmap v w :
  is_none v = false ->
  find (fun av => py_eqb (fst av) v) vmap = None ->
  interface.use_parameter (interface.EnumParameterClass name vmap) v w
  = (inl (ParameterError name), w).
Proof.
  intros Hv Hfind. unfold interface.use_parameter, lift.
  cbn [interface.to_device]. now rewrite Hv, Hfind.
Qed.

Ltac not_a_name H :=
  cbn [find fst py_eqb];
  repeat match goal with
         | |- context [String.eqb ?n ?m] =>
             destruct (String.eqb_spec n m) as [<-|_]; [exfalso; apply H; cbn; tauto|]
         end;
  reflexivity.

Lemma use_mode_rejects m w :
  ~ In m ["off"; "input"; "manual"] ->
  interface.use_parameter _p_output_mode (VStr m) w = (inl (ParameterError "output_mode"), w).
Proof. intros H. apply use_enum_rejects; [reflexivity|]. not_a_name H. Qed.

Lemma use_source_rejects s w :
  ~ In s ["kelvin"; "celsius"; "sensor"; "linear"] ->
  interface.use_parameter _p_source (VStr s) w = (inl (ParameterError "source"), w).
Proof. intros H. apply use_enum_rejects; [reflexivity|]. not_a_name H. Qed.

(** X4: [setup_analog_output] checks [output], [mode], [channel] and
    [source] before it talks to the instrument.  With the other three
    accepted ([None], a name of the enumeration, an integer in range): an
    integer [output] outside 1..2 raises the invalid-parameter error of
    [output]; a [mode] string that is not one of off, input, manual raises
    the one of [output_mode]; an integer [channel] outside 1..8 the one of
    [channel]; a [source] string that is not one of kelvin, celsius, sensor,
    linear the one of [source].  In each case nothing is sent, not even the
    query for the current settings, and the instrument is left as it was. *)
Theorem X4_setup_analog_output_checks_first o b mode channel source h l mv w :
  (o < 1 \/ 2 < o -> valid_mode mode -> valid_channel channel -> valid_source source ->
   setup_analog_output (VInt o) b mode channel source h l mv w
   = (inl (ParameterError "output"), w)) /\
  (forall m, 1 <= o <= 2 -> ~ In m ["off"; "input"; "manual"] ->
   valid_channel channel -> valid_source source ->
   setup_analog_output (VInt o) b (VStr m) channel source h l mv w
   = (inl (ParameterError "output_mode"), w)) /\
  (forall c, 1 <= o <= 2 -> valid_mode mode -> c < 1 \/ 8 < c -> valid_source source ->
   setup_analog_output (VInt o) b mode (VInt c) source h l mv w
   = (inl (ParameterError "channel"), w)) /\
  (forall s, 1 <= o <= 2 -> valid_mode mode -> valid_channel channel ->
   ~ In s ["kelvin"; "celsius"; "sensor"; "linear"] ->
   setup_analog_output (VInt o) b mode channel (VStr s) h l mv w
   = (inl (ParameterError "source"), w)).
Proof.
  repeat apply conj.
  - intros Ho _ _ _. unfold setup_analog_output.
    erewrite bind_raise by (now apply use_parameter_rejects). reflexivity.
  - intros m Ho Hm _ _. unfold setup_analog_output.
    erewrite bind_ok by (now apply use_range_parameter).
    erewrite bind_raise by (now apply use_mode_rejects). reflexivity.
  - intros c Ho Hm Hc _. unfold setup_analog_output.
    destruct (valid_mode_converts mode Hm) as [m_dev Cm].
    erewrite bind_ok by (now apply use_range_parameter).
    erewrite bind_ok by (apply use_converted; eassumption).
    erewrite bind_raise by (now apply use_parameter_rejects). reflexivity.
  - intros s Ho Hm Hc Hs. unfold setup_analog_output.
    destruct (valid_mode_converts mode Hm) as [m_dev Cm].
    pose proof (valid_channel_converts channel Hc) as Cc.
    erewrite bind_ok by (now apply use_range_parameter).
    erewrite bind_ok by (apply use_converted; eassumption).
    erewrite bind_ok by (apply use_converted; eassumption).
    erewrite bind_raise by (now apply use_source_rejects). reflexivity.
Qed.

(** What [setup_analog_output] leaves behind on an instrument that
    implements [ANALOG]. *)
Lemma setup_analog_output_effect an o b m c s h l mv cur prior w :
  honours_ANALOG an -> 1 <= o <= 2 ->
  valid_mode m -> valid_channel c -> valid_source s ->
  an (dev w) o = astuple cur -> presented cur = inr prior ->
  exists written d',
    setup_analog_output (VInt o) b m c s h l mv w
    = (inr (overlay prior b m c s h l mv),
       mkWorld d'
         (log w ++ [EvAsk ("ANALOG? " ++ Py.str_of_int o) analog_types;
                    EvWrite "ANALOG" (Some (VInt o :: astuple written));
                    EvAsk ("ANALOG? " ++ Py.str_of_int o) analog_types])
         (variables w)) /\
    an d' o = astuple written /\
    presented written = inr (overlay prior b m c s h l mv).
Proof.
  intros H Ho Hm Hc Hs Hcur Hprior.
  destruct (valid_mode_converts m Hm) as [m_dev Cm].
  destruct (valid_source_converts s Hs) as [s_dev Cs].
  pose proof (valid_channel_converts c Hc) as Cc.
  pose proof (presented_overlay cur prior b m m_dev c s s_dev h l mv Hprior Cm Cs) as Hshown.
  exists (overlay cur b m_dev c s_dev h l mv).
  eexists. unfold setup_analog_output.
  erewrite bind_ok by (now apply use_range_parameter).
  erewrite bind_ok by (apply use_converted; eassumption).
  erewrite bind_ok by (apply use_converted; eassumption).
  erewrite bind_ok by (apply use_converted; eassumption).
  unfold setup_analog_output_body.
  erewrite bind_ok by (eapply get_analog_output_settings_body_run; eassumption).
  rewrite overlay_astuple.
  erewrite bind_ok by (apply write_surj; now apply (ANALOG_accepted H)).
  cbn [dev record].
  set (d1 := snd (scpi_ask _ analog_types (dev w))).
  set (d2 := snd (scpi_write "ANALOG" _ d1)).
  assert (Hd2 : an d2 o = astuple (overlay cur b m_dev c s_dev h l mv)).
  { subst d2. now apply (ANALOG_stored H). }
  match goal with
  | |- context [get_analog_output_settings (VInt o) ?w2] =>
      rewrite (get_analog_output_settings_shown an o _ _ w2 H Ho Hd2 Hshown)
  end.
  unfold record. cbn [dev log variables]. rewrite <- !app_assoc. cbn [app].
  split; [reflexivity|]. split; [|assumption].
  now rewrite (ANALOG_query_pure H).
Qed.

Lemma get_analog_output_run o w :
  1 <= o <= 2 ->
  get_analog_output (VInt o) w = ask ("AOUT? " ++ Py.str_of_int o) (DT TFloat) w.
Proof.
  intros Ho. unfold get_analog_output.
  erewrite bind_ok by (now apply use_range_parameter). reflexivity.
Qed.

(** X5: on an instrument that implements [ANALOG], for an output o in 1..2,
    [set_analog_output_value] makes one read-modify-write of the settings
    and then returns the reply to [AOUT? o].  With [enabled] true the
    settings written are the prior ones with the mode set to manual, the
    manual value set to [value] and the bipolar flag set to [bipolar] (each
    kept when passed as [None]); with [enabled] false only the mode changes,
    to off, and [value] and [bipolar] are not used. *)
Theorem X5_set_analog_output_value an o value b (enabled : bool) cur prior w :
  honours_ANALOG an -> 1 <= o <= 2 ->
  an (dev w) o = astuple cur -> presented cur = inr prior ->
  exists written d',
    presented written
    = inr (if enabled
           then overlay prior b (VStr "manual") VNone VNone VNone VNone value
           else mkAnalog (bipolar prior) (VStr "off") (channel prior) (source prior)
                         (high_value prior) (low_value prior) (man_value prior)) /\
    an d' o = astuple written /\
    set_analog_output_value (VInt o) value b enabled w
    = (fst (scpi_ask ("AOUT? " ++ Py.str_of_int o) (DT TFloat) d'),
       mkWorld (snd (scpi_ask ("AOUT? " ++ Py.str_of_int o) (DT TFloat) d'))
         (log w ++ [EvAsk ("ANALOG? " ++ Py.str_of_int o) analog_types;
                    EvWrite "ANALOG" (Some (VInt o :: astuple written));
                    EvAsk ("ANALOG? " ++ Py.str_of_int o) analog_types;
                    EvAsk ("AOUT? " ++ Py.str_of_int o) (DT TFloat)])
         (variables w)).
Proof.
  intros H Ho Hcur Hprior. unfold set_analog_output_value.
  destruct enabled; cbn [negb].
  - destruct (setup_analog_output_effect an o b (VStr "manual") VNone VNone VNone VNone value
                cur prior w H Ho) as (written & d' & Erun & Hd' & Hshown);
      try assumption; [cbn; tauto|now left|now left|].
    exists written, d'. split; [assumption|]. split; [assumption|].
    erewrite bind_ok by exact Erun.
    rewrite get_analog_output_run, ask_run by assumption.
    unfold record. cbn [dev log variables]. now rewrite <- !app_assoc.
  - destruct (setup_analog_output_effect an o VNone (VStr "off") VNone VNone VNone VNone VNone
                cur prior w H Ho) as (written & d' & Erun & Hd' & Hshown);
      try assumption; [cbn; tauto|now left|now left|].
    exists written, d'. split; [assumption|]. split; [assumption|].
    erewrite bind_ok by exact Erun.
    rewrite get_analog_output_run, ask_run by assumption.
    unfold record. cbn [dev log variables]. now rewrite <- !app_assoc.
Qed.

End AnalogValue.

Lemma X4_setup_analog_output_checks_first_witness :
  Lakeshore218.setup_analog_output (VInt 3) VNone (VStr "manual") (VInt 2) VNone VNone VNone
    VNone (Sim.fresh Sim.bench)
  = (inl (ParameterError "output"), Sim.fresh Sim.bench) /\
  Lakeshore218.setup_analog_output (VInt 1) VNone (VStr "auto") (VInt 2) VNone VNone VNone
    VNone (Sim.fresh Sim.bench)
  = (inl (ParameterError "output_mode"), Sim.fresh Sim.bench) /\
  Lakeshore218.setup_analog_output (VInt 1) VNone (VStr "manual") (VInt 9) VNone VNone VNone
    VNone (Sim.fresh Sim.bench)
  = (inl (ParameterError "channel"), Sim.fresh Sim.bench) /\
  Lakeshore218.setup_analog_output (VInt 1) VNone (VStr "manual") (VInt 2) (VStr "ohm") VNone
    VNone VNone (Sim.fresh Sim.bench)
  = (inl (ParameterError "source"), Sim.fresh Sim.bench).
Proof.
  repeat apply conj.
  - apply (proj1 (X4_setup_analog_output_checks_first 3 VNone (VStr "manual") (VInt 2) VNone
                    VNone VNone VNone (Sim.fresh Sim.bench)));
      [lia|cbn; tauto|right; exists 2; split; [reflexivity|lia]|now left].
  - apply (proj1 (proj2 (X4_setup_analog_output_checks_first 1 VNone VNone (VInt 2) VNone
                           VNone VNone VNone (Sim.fresh Sim.bench))) "auto");
      [lia|cbn; intuition discriminate|right; exists 2; split; [reflexivity|lia]|now left].
  - apply (proj1 (proj2 (proj2 (X4_setup_analog_output_checks_first 1 VNone (VStr "manual")
                                  VNone VNone VNone VNone VNone (Sim.fresh Sim.bench)))) 9);
      [lia|cbn; tauto|lia|now left].
  - apply (proj2 (proj2 (proj2 (X4_setup_analog_output_checks_first 1 VNone (VStr "manual")
                                  (VInt 2) VNone VNone VNone VNone (Sim.fresh Sim.bench))))
             "ohm");
      [lia|cbn; tauto|right; exists 2; split; [reflexivity|lia]|cbn; intuition discriminate].
Defined.

Lemma X5_set_analog_output_value_witness :
  exists (written : Lakeshore218.TAnalogSettings) (d' : Sim.state),
    Lakeshore218.set_analog_output_value (VInt 1) (Sim.fl "12.5") (VBool true) false
      (Sim.fresh Sim.bench)
    = (fst (scpi_ask "AOUT? 1" (DT TFloat) d'),
       mkWorld (snd (scpi_ask "AOUT? 1" (DT TFloat) d'))
         ([] ++ [EvAsk "ANALOG? 1" Lakeshore218.analog_types;
                 EvWrite "ANALOG" (Some (VInt 1 :: Lakeshore218.astuple written));
                 EvAsk "ANALOG? 1" Lakeshore218.analog_types;
                 EvAsk "AOUT? 1" (DT TFloat)])
         []) /\
    presented written
    = inr (Lakeshore218.mkAnalog (VBool false) (VStr "off") (VInt 3) (VStr "kelvin")
             (Sim.fl "300.0") (Sim.fl "0.0") (Sim.fl "0.0")).
Proof.
  destruct (X5_set_analog_output_value Sim.analog 1 (Sim.fl "12.5") (VBool true) false
              (Lakeshore218.mkAnalog (VBool false) (VInt 1) (VInt 3) (VInt 1)
                 (Sim.fl "300.0") (Sim.fl "0.0") (Sim.fl "0.0"))
              (Lakeshore218.mkAnalog (VBool false) (VStr "input") (VInt 3) (VStr "kelvin")
                 (Sim.fl "300.0") (Sim.fl "0.0") (Sim.fl "0.0"))
              (Sim.fresh Sim.bench) Sim_honours_ANALOG ltac:(lia) eq_refl eq_refl)
    as (written & d' & Hshown & _ & Erun).
  exists written, d'. split; [exact Erun|exact Hshown].
Defined.

(** ** Lakeshore 218: readings of all channels *)

Section Readings.
Context {PF : PyFloat} {D : Type} {T : SCPIDevice D}.
Implicit Types w : world (D:=D).

Lemma split_length s : List.length (Py.split "," s) = S (count_commas s).
Proof.
  induction s as [|c s IH]; [reflexivity|].
  cbn [Py.split count_commas]. destruct (Ascii.eqb c ",").
  - cbn [List.length]. now rewrite IH.
  - destruct (Py.split "," s); [discriminate|]. exact IH.
Qed.

Lemma comprehension_rejects fields :
  Exists (fun f => float_of_str (Py.strip f) = None) fields ->
  Lakeshore218.comprehension (fun x => py_float (Py.strip x)) fields = inl ValueError.
Proof.
  induction 1 as [f fields Hf|f fields _ IH]; cbn [Lakeshore218.comprehension];
    unfold py_float at 1.
  - now rewrite Hf.
  - destruct (float_of_str (Py.strip f)); [|reflexivity]. now rewrite IH.
Qed.

(** X6: [get_all_sensor_readings] issues the single query [SRDG? 0].  When
    every comma-separated field of the reply spells a float it returns one
    float per field, in the order of the fields: as many values as the reply
    has commas, plus one, so never an empty list.  When some field does not
    spell a float (an empty reply has one empty field) it raises
    [ValueError] and returns no partial list, and so does
    [get_all_temperatures]. *)
Theorem X6_all_readings_parse w s :
  (fst (scpi_ask "SRDG? 0" (DT TString) (dev w)) = inr (VStr s) ->
   log (snd (Lakeshore218.get_all_sensor_readings w))
   = (log w ++ [EvAsk "SRDG? 0" (DT TString)])%list /\
   (forall xs,
      Forall2 (fun f x => float_of_str (Py.strip f) = Some x) (Py.split "," s) xs ->
      fst (Lakeshore218.get_all_sensor_readings w) = inr (map VFloat xs) /\
      List.length xs = S (count_commas s)) /\
   (Exists (fun f => float_of_str (Py.strip f) = None) (Py.split "," s) ->
    fst (Lakeshore218.get_all_sensor_readings w) = inl ValueError)) /\
  (fst (scpi_ask "KRDG? 0" (DT TString) (dev w)) = inr (VStr s) ->
   Exists (fun f => float_of_str (Py.strip f) = None) (Py.split "," s) ->
   fst (Lakeshore218.get_all_temperatures w) = inl ValueError).
Proof.
  split.
  - intros Hreply. unfold Lakeshore218.get_all_sensor_readings, bind.
    rewrite ask_run, Hreply. unfold lift. cbn [fst snd log record].
    split; [reflexivity|]. split.
    + intros xs Hparse. split; [now apply comprehension_floats|].
      now rewrite <- (Forall2_length Hparse), split_length.
    + apply comprehension_rejects.
  - intros Hreply Hbad. unfold Lakeshore218.get_all_temperatures, bind.
    rewrite ask_run, Hreply. unfold lift. cbn [fst].
    now apply comprehension_rejects.
Qed.

End Readings.

Lemma X6_all_readings_parse_witness :
  (fst (Lakeshore218.get_all_sensor_readings (T:=Script.device)
          (Script.fresh [("SRDG? 0", VStr "1.5, 2.25")]))
   = inr (map (VFloat (PF:=Sim.DecFloat)) [1500000; 2250000]) /\
   List.length [1500000; 2250000] = 2%nat) /\
  fst (Lakeshore218.get_all_temperatures (T:=Script.device)
         (Script.fresh [("KRDG? 0", VStr ""); ("SRDG? 0", VStr "")]))
  = inl ValueError.
Proof.
  split.
  - exact (proj1 (proj2 (proj1 (X6_all_readings_parse (T:=Script.device)
                                  (Script.fresh [("SRDG? 0", VStr "1.5, 2.25")])
                                  "1.5, 2.25") eq_refl))
             [1500000; 2250000] ltac:(repeat constructor)).
  - exact (proj2 (X6_all_readings_parse (T:=Script.device)
                    (Script.fresh [("KRDG? 0", VStr ""); ("SRDG? 0", VStr "")]) "")
             eq_refl ltac:(now constructor)).
Defined.

(** ** Lakeshore 370: what is sent when an argument is not a number *)

Section NotANumber.
Context {PF : PyFloat} {D : Type} {T : SCPIDevice D}.
Implicit Types w : world (D:=D).

(** X7: [setup_heater_openloop] formats each command just before it sends
    it, so a bad argument stops the sequence midway: when the resistance is
    not a number, [CMODE 3] has been sent and nothing else when the format
    error is raised; when the resistance is a number and the percentage is
    not, [CMODE 3], [CSET ...] and [HTRRNG ...] have been sent and [MOUT]
    has not. *)
Theorem X7_setup_heater_openloop_stops_midway heater_range heater_percent heater_res e w :
  writes_accepted ->
  (py_format_f heater_res = inl e ->
   fst (Lakeshore370.setup_heater_openloop heater_range heater_percent heater_res w) = inl e /\
   sent (Lakeshore370.setup_heater_openloop heater_range heater_percent heater_res) w
   = [EvWrite "CMODE 3" None]) /\
  (forall res, py_format_f heater_res = inr res -> py_format_f heater_percent = inl e ->
   fst (Lakeshore370.setup_heater_openloop heater_range heater_percent heater_res w) = inl e /\
   sent (Lakeshore370.setup_heater_openloop heater_range heater_percent heater_res) w
   = [EvWrite "CMODE 3" None;
      EvWrite ("CSET 1,0,1,25,1," ++ py_str heater_range ++ "," ++ res) None;
      EvWrite ("HTRRNG " ++ py_str heater_range) None]).
Proof.
  intros Hw. split.
  - intros Hres. unfold Lakeshore370.setup_heater_openloop.
    erewrite bind_ok by (apply write_surj, Hw).
    erewrite bind_raise by (unfold lift; now rewrite Hres).
    split; [reflexivity|]. apply sent_app.
    erewrite bind_ok by (apply write_surj, Hw).
    erewrite bind_raise by (unfold lift; now rewrite Hres). reflexivity.
  - intros res Hres Hpercent.
    assert (E : exists d',
               Lakeshore370.setup_heater_openloop heater_range heater_percent heater_res w
               = (inl e,
                  mkWorld d'
                    (log w ++ [EvWrite "CMODE 3" None;
                               EvWrite ("CSET 1,0,1,25,1," ++ py_str heater_range ++ "," ++ res)
                                 None;
                               EvWrite ("HTRRNG " ++ py_str heater_range) None])
                    (variables w))).
    { eexists. unfold Lakeshore370.setup_heater_openloop.
      erewrite bind_ok by (apply write_surj, Hw).
      erewrite bind_ok by (unfold lift; now rewrite Hres).
      erewrite bind_ok by (apply write_surj, Hw).
      erewrite bind_ok by (apply write_surj, Hw).
      erewrite bind_raise by (unfold lift; now rewrite Hpercent).
      unfold record. cbn [dev log variables]. now rewrite <- !app_assoc. }
    destruct E as [d' E]. split; [now rewrite E|]. apply sent_app. now rewrite E.
Qed.

(** X8: [set_analog_output] of the 370 with a value that is neither equal
    to zero nor a number ([None], a string) raises the format error before
    anything is sent: the driver and the transcript stay as they were. *)
Theorem X8_set_analog_output_rejects_non_numbers channel value e w :
  py_eq_zero value = false -> py_format_f value = inl e ->
  Lakeshore370.set_analog_output channel value w = (inl e, w).
Proof.
  intros Hz Hf. unfold Lakeshore370.set_analog_output. rewrite Hz.
  erewrite bind_raise; [reflexivity|].
  erewrite bind_raise; [reflexivity|]. unfold lift. now rewrite Hf.
Qed.

(** X9: [get_heater_settings_openloop] takes the resistance from the
    seventh field of the [CSET?] reply after it has made all three queries:
    when that reply has fewer than seven comma-separated fields (at most
    five commas) the call raises [IndexError], with [CSET?], [MOUT?] and
    [HTRRNG?] all sent. *)
Theorem X9_get_heater_settings_short_reply w reply d1 heater_percent d2 heater_range d3 :
  scpi_ask "CSET?" (DT TString) (dev w) = (inr (VStr reply), d1) ->
  scpi_ask "MOUT?" (DT TFloat) d1 = (inr heater_percent, d2) ->
  scpi_ask "HTRRNG?" (DT TInt) d2 = (inr heater_range, d3) ->
  (count_commas reply <= 5)%nat ->
  Lakeshore370.get_heater_settings_openloop w
  = (inl IndexError,
     mkWorld d3
       (log w ++ [EvAsk "CSET?" (DT TString); EvAsk "MOUT?" (DT TFloat);
                  EvAsk "HTRRNG?" (DT TInt)])
       (variables w)).
Proof.
  intros Hcset Hmout Hrange Hshort.
  unfold Lakeshore370.get_heater_settings_openloop, bind.
  rewrite ask_run, Hcset. cbn [fst snd].
  rewrite ask_run. cbn [dev record]. rewrite Hmout. cbn [fst snd].
  rewrite ask_run. cbn [dev record]. rewrite Hrange. cbn [fst snd].
  replace (nth_error (map Py.strip (Py.split "," reply)) 6) with (@None string).
  - unfold raise, record. cbn [log variables]. now rewrite <- !app_assoc.
  - symmetry. apply nth_error_None. rewrite length_map, split_length. lia.
Qed.

End NotANumber.

Lemma X7_setup_heater_openloop_stops_midway_witness :
  fst (Lakeshore370.setup_heater_openloop (VInt 3) (Sim.fl "50.0") (VStr "abc")
         (Sim.fresh Sim.bench)) = inl ValueError /\
  sent (Lakeshore370.setup_heater_openloop (VInt 3) (Sim.fl "50.0") (VStr "abc"))
       (Sim.fresh Sim.bench)
  = [EvWrite "CMODE 3" None].
Proof.
  exact (proj1 (X7_setup_heater_openloop_stops_midway (VInt 3) (Sim.fl "50.0") (VStr "abc")
                  ValueError (Sim.fresh Sim.bench) Sim_writes_accepted) eq_refl).
Defined.

Lemma X8_set_analog_output_rejects_non_numbers_witness :
  Lakeshore370.set_analog_output (VInt 1) VNone (Sim.fresh Sim.bench)
  = (inl TypeError, Sim.fresh Sim.bench).
Proof.
  exact (X8_set_analog_output_rejects_non_numbers (VInt 1) VNone TypeError
           (Sim.fresh Sim.bench) eq_refl eq_refl).
Defined.

Lemma X9_get_heater_settings_short_reply_witness :
  Lakeshore370.get_heater_settings_openloop (T:=Script.device)
    (Script.fresh [("CSET?", VStr "1,0,1"); ("MOUT?", Sim.fl "1.0"); ("HTRRNG?", VInt 2)])
  = (inl IndexError,
     mkWorld [("CSET?", VStr "1,0,1"); ("MOUT?", Sim.fl "1.0"); ("HTRRNG?", VInt 2)]
       ([] ++ [EvAsk "CSET?" (DT TString); EvAsk "MOUT?" (DT TFloat);
               EvAsk "HTRRNG?" (DT TInt)])
       []).
Proof.
  exact (X9_get_heater_settings_short_reply (T:=Script.device)
           (Script.fresh [("CSET?", VStr "1,0,1"); ("MOUT?", Sim.fl "1.0"); ("HTRRNG?", VInt 2)])
           "1,0,1"
           [("CSET?", VStr "1,0,1"); ("MOUT?", Sim.fl "1.0"); ("HTRRNG?", VInt 2)]
           (Sim.fl "1.0")
           [("CSET?", VStr "1,0,1"); ("MOUT?", Sim.fl "1.0"); ("HTRRNG?", VInt 2)]
           (VInt 2)
           [("CSET?", VStr "1,0,1"); ("MOUT?", Sim.fl "1.0"); ("HTRRNG?", VInt 2)]
           eq_refl eq_refl eq_refl ltac:(cbn; lia)).
Defined.

(** ** Printing and reading channel numbers *)

Section Numerals.

Lemma digits_acc_step c dv r acc b :
  Py.digit c = Some dv -> Ascii.eqb c "_" = false ->
  Py.digits_acc (String c r) acc b = Py.digits_acc r (acc * 10 + dv) true.
Proof. intros Hd Hu. cbn [Py.digits_acc]. now rewrite Hu, Hd. Qed.

Ltac digit_step :=
  match goal with
  | |- context [Py.digits_acc (String ?c _) _ _] =>
      let dv := eval vm_compute in (Py.digit c) in
      match dv with
      | Some ?v => rewrite (digits_acc_step c v) by reflexivity
      end
  end.

Lemma digits_acc_pos d acc :
  Py.digits_acc (NilEmpty.string_of_uint d) (Zpos acc) true
  = Some (Zpos (Pos.of_uint_acc d acc)).
Proof.
  revert acc.
  induction d as [|d IH|d IH|d IH|d IH|d IH|d IH|d IH|d IH|d IH|d IH]; intros acc;
    cbn [NilEmpty.string_of_uint Pos.of_uint_acc]; [reflexivity|..];
    digit_step; rewrite <- IH; f_equal; lia.
Qed.

Lemma digits_acc_uint d :
  Py.digits_acc (NilEmpty.string_of_uint d) 0 true = Some (Z.of_N (Pos.of_uint d)).
Proof.
  induction d as [|d IH|d IH|d IH|d IH|d IH|d IH|d IH|d IH|d IH|d IH];
    cbn [NilEmpty.string_of_uint Pos.of_uint]; [reflexivity|..];
    digit_step; [exact IH|..]; apply digits_acc_pos.
Qed.

Lemma digits_acc_start d :
  d <> Decimal.Nil ->
  Py.digits_acc (NilEmpty.string_of_uint d) 0 false
  = Py.digits_acc (NilEmpty.string_of_uint d) 0 true.
Proof.
  destruct d; [contradiction|..]; intros _; cbn [NilEmpty.string_of_uint];
    now do 2 digit_step.
Qed.

Lemma digits_of_positive p :
  Py.digits_acc (NilEmpty.string_of_uint (Pos.to_uint p)) 0 false = Some (Zpos p).
Proof.
  rewrite digits_acc_start by apply DecimalPos.Unsigned.to_uint_nonnil.
  now rewrite digits_acc_uint, DecimalPos.Unsigned.of_to.
Qed.

Lemma rstrip_digits d :
  Py.rstrip (NilEmpty.string_of_uint d) = NilEmpty.string_of_uint d.
Proof.
  induction d as [|d IH|d IH|d IH|d IH|d IH|d IH|d IH|d IH|d IH|d IH];
    cbn [NilEmpty.string_of_uint Py.rstrip]; [reflexivity|..];
    rewrite IH; now destruct (NilEmpty.string_of_uint d).
Qed.

Lemma lstrip_digits d :
  Py.lstrip (NilEmpty.string_of_uint d) = NilEmpty.string_of_uint d.
Proof. now destruct d. Qed.

Lemma lstrip_spaces k s : Py.lstrip (Py.spaces k ++ s) = Py.lstrip s.
Proof. induction k as [|k IH]; [reflexivity|exact IH]. Qed.

Lemma comma_free_digits d : comma_free (NilEmpty.string_of_uint d) = true.
Proof.
  induction d as [|d IH|d IH|d IH|d IH|d IH|d IH|d IH|d IH|d IH|d IH];
    cbn [NilEmpty.string_of_uint comma_free]; [reflexivity|..]; now rewrite IH.
Qed.

Lemma comma_free_spaces k s : comma_free (Py.spaces k ++ s) = comma_free s.
Proof. induction k as [|k IH]; [reflexivity|exact IH]. Qed.

(** The three shapes of a printed integer. *)
Lemma str_of_int_shape z :
  (z = 0 /\ Py.str_of_int z = "0") \/
  (exists p, z = Zpos p /\ Py.str_of_int z = NilEmpty.string_of_uint (Pos.to_uint p)) \/
  (exists p, z = Zneg p /\
             Py.str_of_int z = String "-" (NilEmpty.string_of_uint (Pos.to_uint p))).
Proof.
  destruct z as [|p|p].
  - now left.
  - right. left. exists p. split; [reflexivity|].
    unfold Py.str_of_int. cbn [Z.to_int NilZero.string_of_int NilZero.string_of_uint].
    pose proof (DecimalPos.Unsigned.to_uint_nonnil p) as Hp.
    now destruct (Pos.to_uint p).
  - right. right. exists p. split; [reflexivity|].
    unfold Py.str_of_int. cbn [Z.to_int NilZero.string_of_int NilZero.string_of_uint].
    pose proof (DecimalPos.Unsigned.to_uint_nonnil p) as Hp.
    now destruct (Pos.to_uint p).
Qed.

Lemma strip_str_of_int z : Py.strip (Py.str_of_int z) = Py.str_of_int z.
Proof.
  unfold Py.strip.
  destruct (str_of_int_shape z) as [[_ ->]|[(p & _ & ->)|(p & _ & ->)]].
  - reflexivity.
  - now rewrite lstrip_digits, rstrip_digits.
  - cbn [Py.lstrip]. change (Py.is_space "-") with false. cbn iota.
    cbn [Py.rstrip]. rewrite rstrip_digits.
    pose proof (DecimalPos.Unsigned.to_uint_nonnil p) as Hp.
    now destruct (Pos.to_uint p).
Qed.

Lemma lstrip_str_of_int z : Py.lstrip (Py.str_of_int z) = Py.str_of_int z.
Proof.
  destruct (str_of_int_shape z) as [[_ ->]|[(p & _ & ->)|(p & _ & ->)]];
    [reflexivity|apply lstrip_digits|reflexivity].
Qed.

(** [strip] undoes the padding of ["{:2d}"]. *)
Lemma strip_format_2d z : Py.strip (Py.format_2d z) = Py.str_of_int z.
Proof.
  unfold Py.format_2d, Py.strip. rewrite lstrip_spaces, lstrip_str_of_int.
  pose proof (strip_str_of_int z) as H. unfold Py.strip in H.
  now rewrite lstrip_str_of_int in H.
Qed.

(** [int] reads back what [str] prints. *)
Lemma int_of_str_of_int z : Py.int_of_str (Py.str_of_int z) = Some z.
Proof.
  unfold Py.int_of_str. rewrite strip_str_of_int.
  destruct (str_of_int_shape z) as [[-> ->]|[(p & -> & ->)|(p & -> & ->)]].
  - reflexivity.
  - pose proof (digits_of_positive p) as H.
    pose proof (DecimalPos.Unsigned.to_uint_nonnil p) as Hp.
    destruct (Pos.to_uint p); [contradiction|..]; exact H.
  - cbn iota. now rewrite digits_of_positive.
Qed.

Lemma comma_free_format_2d z : comma_free (Py.format_2d z) = true.
Proof.
  unfold Py.format_2d. rewrite comma_free_spaces.
  destruct (str_of_int_shape z) as [[_ ->]|[(p & _ & ->)|(p & _ & ->)]].
  - reflexivity.
  - apply comma_free_digits.
  - cbn [comma_free]. now rewrite comma_free_digits.
Qed.

Lemma format_2d_inj z1 z2 : Py.format_2d z1 = Py.format_2d z2 -> z1 = z2.
Proof.
  intros E. apply (f_equal Py.strip) in E. rewrite !strip_format_2d in E.
  apply (f_equal Py.int_of_str) in E. rewrite !int_of_str_of_int in E.
  now injection E.
Qed.

End Numerals.

(** ** Lakeshore 370: the scan channel *)

Section ScanChannel.
Context {PF : PyFloat} {D : Type} {T : SCPIDevice D}.
Implicit Types w : world (D:=D).

(** X10: [get_channel] returns the integer spelled before the first comma
    of the [SCAN?] reply and ignores the rest: a channel printed the way
    [select_channel] prints it (["{:2d}"], padding included) is read back
    as the same number, with or without further fields; an empty reply
    raises [ValueError]. *)
Theorem X10_get_channel_reads_the_first_field c d1 w :
  (forall rest,
     scpi_ask "SCAN?" (DT TString) (dev w)
     = (inr (VStr (Py.format_2d c ++ "," ++ rest)), d1) ->
     Lakeshore370.get_channel w = (inr (VInt c), record (EvAsk "SCAN?" (DT TString)) d1 w)) /\
  (scpi_ask "SCAN?" (DT TString) (dev w) = (inr (VStr (Py.format_2d c)), d1) ->
   Lakeshore370.get_channel w = (inr (VInt c), record (EvAsk "SCAN?" (DT TString)) d1 w)) /\
  (scpi_ask "SCAN?" (DT TString) (dev w) = (inr (VStr ""), d1) ->
   Lakeshore370.get_channel w = (inl ValueError, record (EvAsk "SCAN?" (DT TString)) d1 w)).
Proof.
  repeat split.
  - intros rest Hreply. unfold Lakeshore370.get_channel, bind.
    rewrite ask_run, Hreply. cbn [fst snd].
    rewrite split_field by apply comma_free_format_2d.
    now rewrite strip_format_2d, int_of_str_of_int.
  - intros Hreply. unfold Lakeshore370.get_channel, bind.
    rewrite ask_run, Hreply. cbn [fst snd].
    rewrite split_comma_free by apply comma_free_format_2d.
    now rewrite strip_format_2d, int_of_str_of_int.
  - intros Hreply. unfold Lakeshore370.get_channel, bind.
    now rewrite ask_run, Hreply.
Qed.

Lemma sent_write msg arg w : sent (write msg arg) w = [EvWrite msg arg].
Proof. apply sent_app, write_log. Qed.

Lemma sent_ask msg dt w : sent (ask msg dt) w = [EvAsk msg dt].
Proof. apply sent_app. now rewrite ask_run. Qed.

(** X11: the channel number is never cut or merged by the two-character
    format: for two different channels [select_channel], [get_resistance]
    and [get_sensor_power] each send two different commands. *)
Theorem X11_channel_commands_distinct c1 c2 w :
  c1 <> c2 ->
  sent (Lakeshore370.select_channel c1) w <> sent (Lakeshore370.select_channel c2) w /\
  sent (Lakeshore370.get_resistance c1) w <> sent (Lakeshore370.get_resistance c2) w /\
  sent (Lakeshore370.get_sensor_power c1) w <> sent (Lakeshore370.get_sensor_power c2) w.
Proof.
  intros Hc.
  unfold Lakeshore370.select_channel, Lakeshore370.get_resistance,
    Lakeshore370.get_sensor_power.
  rewrite !sent_write, !sent_ask. repeat split; intros [= E]; apply Hc.
  - change (Py.format_2d c1 ++ "," ++ "0" = Py.format_2d c2 ++ "," ++ "0") in E.
    apply (f_equal (Py.split ",")) in E.
    rewrite !split_field in E by apply comma_free_format_2d.
    injection E as E. now apply format_2d_inj.
  - now apply format_2d_inj.
  - now apply format_2d_inj.
Qed.

End ScanChannel.

Lemma X10_get_channel_reads_the_first_field_witness :
  Lakeshore370.get_channel (T:=Script.device) (Script.fresh [("SCAN?", VStr " 5,0")])
  = (inr (VInt 5),
     record (EvAsk "SCAN?" (DT TString)) [("SCAN?", VStr " 5,0")]
       (Script.fresh [("SCAN?", VStr " 5,0")])).
Proof.
  exact (proj1 (X10_get_channel_reads_the_first_field (T:=Script.device) 5
                  [("SCAN?", VStr " 5,0")] (Script.fresh [("SCAN?", VStr " 5,0")]))
           "0" eq_refl).
Defined.

Lemma X11_channel_commands_distinct_witness :
  sent (Lakeshore370.select_channel 1) (Sim.fresh Sim.bench)
  <> sent (Lakeshore370.select_channel 11) (Sim.fresh Sim.bench).
Proof.
  exact (proj1 (X11_channel_commands_distinct 1 11 (Sim.fresh Sim.bench) ltac:(lia))).
Defined.

(** ** Construction: the other ways it ends *)

Section Construction2.
Context {PF : PyFloat} {D : Type} {T : SCPIDevice D}.
Implicit Types w : world (D:=D).

Lemma init_refused conn backend term_write term_read w e d1 :
  scpi_init conn backend term_write term_read (dev w) = (Some e, d1) ->
  init conn backend term_write term_read w
  = (inl e, record (EvInit conn backend term_write term_read) d1 w).
Proof. intros E. unfold init, outcome. now rewrite E. Qed.

Lemma identification_other_failure e w d2 :
  scpi_get_id 2000 (dev w) = (inl e, d2) -> is_instr_error e = false ->
  try_except (get_id 2000 ;; ret tt)
    (fun e => if is_instr_error e then close ;; raise (BackendOpenError e) else raise e) w
  = (inl e, record (EvGetId 2000) d2 w).
Proof.
  intros E He. unfold try_except, bind, get_id. rewrite E, He. reflexivity.
Qed.

Lemma identification_success idn w d2 :
  scpi_get_id 2000 (dev w) = (inr idn, d2) ->
  try_except (get_id 2000 ;; ret tt)
    (fun e => if is_instr_error e then close ;; raise (BackendOpenError e) else raise e) w
  = (inr tt, record (EvGetId 2000) d2 w).
Proof. intros E. unfold try_except, bind, get_id. now rewrite E. Qed.

(** X12: the constructors wrap and close only for a transport error of the
    identification query.  When opening the connection itself fails, the
    error is raised as it is, nothing else is attempted and the 218 has
    registered no variable; when the identification fails with an error
    that is not a transport error, that error is raised as it is and the
    connection is not closed. *)
Theorem X12_constructor_other_failures conn w e d1 d2 :
  (scpi_init (comm_backend.combine_conn conn Lakeshore218.default_conn)
     (Some "serial") (Some Lakeshore218.CRLF) (Some Lakeshore218.CRLF) (dev w) = (Some e, d1) ->
   Lakeshore218.__init__ conn w
   = (inl e,
      mkWorld d1
        (log w ++ [EvInit (comm_backend.combine_conn conn Lakeshore218.default_conn)
                     (Some "serial") (Some Lakeshore218.CRLF) (Some Lakeshore218.CRLF)])
        (variables w))) /\
  (scpi_init conn None None None (dev w) = (Some e, d1) ->
   Lakeshore370.__init__ conn w
   = (inl e, mkWorld d1 (log w ++ [EvInit conn None None None]) (variables w))) /\
  (scpi_init (comm_backend.combine_conn conn Lakeshore218.default_conn)
     (Some "serial") (Some Lakeshore218.CRLF) (Some Lakeshore218.CRLF) (dev w) = (None, d1) ->
   scpi_get_id 2000 d1 = (inl e, d2) -> is_instr_error e = false ->
   fst (Lakeshore218.__init__ conn w) = inl e /\
   log (snd (Lakeshore218.__init__ conn w))
   = (log w ++ [EvInit (comm_backend.combine_conn conn Lakeshore218.default_conn)
                  (Some "serial") (Some Lakeshore218.CRLF) (Some Lakeshore218.CRLF);
                EvGetId 2000])%list /\
   dev (snd (Lakeshore218.__init__ conn w)) = d2) /\
  (scpi_init conn None None None (dev w) = (None, d1) ->
   scpi_get_id 2000 d1 = (inl e, d2) -> is_instr_error e = false ->
   Lakeshore370.__init__ conn w
   = (inl e, mkWorld d2 (log w ++ [EvInit conn None None None; EvGetId 2000]) (variables w))).
Proof.
  repeat apply conj.
  - intros Hinit. unfold Lakeshore218.__init__.
    erewrite bind_raise by (apply init_refused; eassumption). reflexivity.
  - intros Hinit. unfold Lakeshore370.__init__.
    erewrite bind_raise by (apply init_refused; eassumption). reflexivity.
  - intros Hinit Hid He. unfold Lakeshore218.__init__.
    erewrite bind_ok by (apply init_ok; eassumption).
    do 7 (erewrite bind_ok by reflexivity).
    erewrite identification_other_failure by (cbn [dev record]; eassumption).
    cbn [fst snd dev log record]. repeat split. now rewrite <- app_assoc.
  - intros Hinit Hid He. unfold Lakeshore370.__init__.
    erewrite bind_ok by (apply init_ok; eassumption).
    erewrite identification_other_failure by (cbn [dev record]; eassumption).
    unfold record. cbn [dev log variables]. now rewrite <- app_assoc.
Qed.

(** X13: when the connection opens and the identification query is
    answered, both constructors return normally having made exactly these
    two calls, and the connection stays open (no close); the 218 has by then
    registered its seven variables, in the order of the source, and the 370
    none. *)
Theorem X13_constructor_success conn w idn d1 d2 :
  (scpi_init (comm_backend.combine_conn conn Lakeshore218.default_conn)
     (Some "serial") (Some Lakeshore218.CRLF) (Some Lakeshore218.CRLF) (dev w) = (None, d1) ->
   scpi_get_id 2000 d1 = (inr idn, d2) ->
   Lakeshore218.__init__ conn w
   = (inr tt,
      mkWorld d2
        (log w ++ [EvInit (comm_backend.combine_conn conn Lakeshore218.default_conn)
                     (Some "serial") (Some Lakeshore218.CRLF) (Some Lakeshore218.CRLF);
                   EvGetId 2000])
        (variables w ++ ["enabled"; "sensor_type"; "temperature"; "sensor_reading";
                         "analog_output"; "analog_output_settings"; "filter_settings"]))) /\
  (scpi_init conn None None None (dev w) = (None, d1) ->
   scpi_get_id 2000 d1 = (inr idn, d2) ->
   Lakeshore370.__init__ conn w
   = (inr tt, mkWorld d2 (log w ++ [EvInit conn None None None; EvGetId 2000]) (variables w))).
Proof.
  split; intros Hinit Hid.
  - unfold Lakeshore218.__init__.
    erewrite bind_ok by (apply init_ok; eassumption).
    do 7 (erewrite bind_ok by reflexivity).
    erewrite identification_success by (cbn [dev record]; eassumption).
    unfold record. cbn [dev log variables]. now rewrite <- !app_assoc.
  - unfold Lakeshore370.__init__.
    erewrite bind_ok by (apply init_ok; eassumption).
    erewrite identification_success by (cbn [dev record]; eassumption).
    unfold record. cbn [dev log variables]. now rewrite <- app_assoc.
Qed.

End Construction2.

Lemma X12_constructor_other_failures_witness :
  Lakeshore370.__init__ (T:=Script.locked) [VStr "COM3"] (Script.fresh [])
  = (inl (DeviceError "port busy"),
     mkWorld [] ([] ++ [EvInit [VStr "COM3"] None None None]) []) /\
  Lakeshore370.__init__ (T:=Script.garbled) [VStr "COM3"] (Script.fresh [])
  = (inl ValueError,
     mkWorld [] ([] ++ [EvInit [VStr "COM3"] None None None; EvGetId 2000]) []).
Proof.
  split.
  - exact (proj1 (proj2 (X12_constructor_other_failures (T:=Script.locked) [VStr "COM3"]
                           (Script.fresh []) (DeviceError "port busy") [] []))
             eq_refl).
  - exact (proj2 (proj2 (proj2 (X12_constructor_other_failures (T:=Script.garbled)
                                  [VStr "COM3"] (Script.fresh []) ValueError [] [])))
             eq_refl eq_refl eq_refl).
Defined.

Lemma X13_constructor_success_witness :
  Lakeshore218.__init__ (T:=Script.device) [VStr "COM3"; VInt 19200]
    (Script.fresh [("*IDN?", VStr "LSCI,MODEL218S,0,120407")])
  = (inr tt,
     mkWorld [("*IDN?", VStr "LSCI,MODEL218S,0,120407")]
       ([] ++ [EvInit [VStr "COM3"; VInt 19200; VInt 7; VStr "E"; VInt 1]
                 (Some "serial") (Some Lakeshore218.CRLF) (Some Lakeshore218.CRLF);
               EvGetId 2000])
       ([] ++ ["enabled"; "sensor_type"; "temperature"; "sensor_reading";
               "analog_output"; "analog_output_settings"; "filter_settings"])).
Proof.
  exact (proj1 (X13_constructor_success (T:=Script.device) [VStr "COM3"; VInt 19200]
                  (Script.fresh [("*IDN?", VStr "LSCI,MODEL218S,0,120407")])
                  (VStr "LSCI,MODEL218S,0,120407")
                  [("*IDN?", VStr "LSCI,MODEL218S,0,120407")]
                  [("*IDN?", VStr "LSCI,MODEL218S,0,120407")])
           eq_refl eq_refl).
Defined.

(** ** Lakeshore 218: the order of a sensor-type change *)

Section SensorTypeOrder.
Context {PF : PyFloat} {D : Type} {T : SCPIDevice D}.
Implicit Types w : world (D:=D).

(** X14: for a group in A, B and a sensor type of the enumeration,
    [set_sensor_type] sends the [INTYPE] command, then waits for the
    instrument, and only then queries [INTYPE?]: when the command is
    accepted and the wait returns, these three calls are made in this order
    and the result is the reply to the query; when the wait raises, that
    error is raised and no query has been sent. *)
Theorem X14_set_sensor_type_waits_before_reading g t d1 w :
  In g ["A"; "B"] ->
  scpi_write ("INTYPE " ++ g ++ " " ++ Py.str_of_int (sensor_type_code t)) None (dev w)
  = (None, d1) ->
  (forall d2, scpi_wait_dev d1 = (None, d2) ->
   Lakeshore218.set_sensor_type (VStr g) (VStr (sensor_type_name t)) w
   = (fst (scpi_ask ("INTYPE? " ++ g) (DT TInt) d2),
      mkWorld (snd (scpi_ask ("INTYPE? " ++ g) (DT TInt) d2))
        (log w ++ [EvWrite ("INTYPE " ++ g ++ " " ++ Py.str_of_int (sensor_type_code t)) None;
                   EvWaitDev;
                   EvAsk ("INTYPE? " ++ g) (DT TInt)])
        (variables w))) /\
  (forall e d2, scpi_wait_dev d1 = (Some e, d2) ->
   Lakeshore218.set_sensor_type (VStr g) (VStr (sensor_type_name t)) w
   = (inl e,
      mkWorld d2
        (log w ++ [EvWrite ("INTYPE " ++ g ++ " " ++ Py.str_of_int (sensor_type_code t)) None;
                   EvWaitDev])
        (variables w))).
Proof.
  intros Hg Hwrite. split.
  - intros d2 Hwait. rewrite set_sensor_type_run by assumption.
    erewrite bind_ok by (apply write_ok; eassumption).
    erewrite bind_ok by (unfold wait_dev, outcome; cbn [dev record]; now rewrite Hwait).
    rewrite ask_run. unfold record. cbn [dev log variables]. now rewrite <- !app_assoc.
  - intros e d2 Hwait. rewrite set_sensor_type_run by assumption.
    erewrite bind_ok by (apply write_ok; eassumption).
    erewrite bind_raise by (unfold wait_dev, outcome; cbn [dev record]; now rewrite Hwait).
    unfold record. cbn [dev log variables]. now rewrite <- !app_assoc.
Qed.

End SensorTypeOrder.

Lemma X14_set_sensor_type_waits_before_reading_witness :
  Lakeshore218.set_sensor_type (VStr "B") (VStr "cernox") (Sim.fresh Sim.bench)
  = (fst (scpi_ask "INTYPE? B" (DT TInt) (Sim.set_intype "B" 5 Sim.bench)),
     mkWorld (snd (scpi_ask "INTYPE? B" (DT TInt) (Sim.set_intype "B" 5 Sim.bench)))
       ([] ++ [EvWrite "INTYPE B 5" None; EvWaitDev; EvAsk "INTYPE? B" (DT TInt)])
       []).
Proof.
  exact (proj1 (X14_set_sensor_type_waits_before_reading "B" cernox
                  (Sim.set_intype "B" 5 Sim.bench) (Sim.fresh Sim.bench)
                  (or_intror (or_introl eq_refl)) eq_refl)
           (Sim.set_intype "B" 5 Sim.bench) eq_refl).
Defined.
